(** * cu.music.cuesheet: cdrdao table-of-contents to cue sheet

    A shallow embedding of [src/cu/music/cuesheet.py].  Python strings are
    [string]s whose characters are read as code points 0..255, Python
    integers are [Z], Python lists are [list]s, and a raised exception is
    the [Err] branch of [result]. *)

From Stdlib Require Import ZArith List String Ascii Bool Lia.
Import ListNotations.

Local Open Scope string_scope.
Local Open Scope Z_scope.

(** ** Exceptions

    The source signals every failure by [assert] or by a built-in
    exception.  Each constructor below stands for one raise site; the
    sites that the specification names keep the specification's name. *)

Inductive error : Type :=
| UnbalancedBraces                 (* asserts of [read_cdrdao_toc], l.51 and l.57 *)
| AmbiguousField (key : string)    (* [assert len(matches) < 2], l.90 *)
| MissingField (key : string)      (* [assert missing_ok], l.93 *)
| UnknownTrackType (value : string)(* [assert False], l.199 *)
| MalformedTimecode (text : string)(* ValueError of [to_fracs], l.131-132 *)
| AssertionError                   (* asserts of [undoublequote] and [track_type] *)
| IndexError                       (* subscript out of range *)
| ValueError                       (* wrong number of values to unpack, l.174 *)
| TypeError.                       (* unpacking [None], l.174 *)

Inductive result (A : Type) : Type :=
| Ok (a : A)
| Err (e : error).

Arguments Ok {A} a.
Arguments Err {A} e.

Definition bind {A B : Type} (r : result A) (k : A -> result B) : result B :=
  match r with
  | Ok a => k a
  | Err e => Err e
  end.

Notation "x <- r ;; k" := (bind r (fun x => k))
  (at level 61, r at next level, right associativity).

Definition assert (b : bool) (e : error) : result unit :=
  if b then Ok tt else Err e.

(** ** Python built-ins used by the module *)

Module Py.

Definition newline : ascii := ascii_of_nat 10.
Definition nl : string := String newline "".

(** [str.isspace] on the code points 0..255. *)
Definition isspace (c : ascii) : bool :=
  let n := nat_of_ascii c in
  ((9 <=? n) && (n <=? 13) || (28 <=? n) && (n <=? 32)
   || (n =? 133) || (n =? 160))%nat.

(** [s.count(c)] for a one-character [c]. *)
Fixpoint count (c : ascii) (s : string) : Z :=
  match s with
  | EmptyString => 0
  | String a r => (if Ascii.eqb a c then 1 else 0) + count c r
  end.

(** [s.lstrip()] *)
Fixpoint lstrip (s : string) : string :=
  match s with
  | EmptyString => EmptyString
  | String a r => if isspace a then lstrip r else s
  end.

(** [s.rstrip()] and [s.rstrip('\n')]: drop the trailing characters
    that satisfy [p]. *)
Fixpoint rstrip_by (p : ascii -> bool) (s : string) : string :=
  match s with
  | EmptyString => EmptyString
  | String a r =>
      match rstrip_by p r with
      | EmptyString => if p a then EmptyString else String a EmptyString
      | r' => String a r'
      end
  end.

Definition rstrip : string -> string := rstrip_by isspace.
Definition rstrip_newline : string -> string :=
  rstrip_by (fun a => Ascii.eqb a newline).
Definition strip (s : string) : string := lstrip (rstrip s).

Definition startswith (s p : string) : bool := String.prefix p s.

Fixpoint endswith (s p : string) : bool :=
  String.eqb s p ||
  match s with
  | EmptyString => false
  | String _ r => endswith r p
  end.

(** [sep.join(l)] *)
Definition join (sep : string) (l : list string) : string :=
  String.concat sep l.

(** [s.split()]: the maximal runs of non-whitespace characters. *)
Fixpoint split_from (cur : string) (s : string) : list string :=
  match s with
  | EmptyString => match cur with EmptyString => [] | _ => [cur] end
  | String a r =>
      if isspace a
      then match cur with
           | EmptyString => split_from EmptyString r
           | _ => cur :: split_from EmptyString r
           end
      else split_from (cur ++ String a EmptyString) r
  end.

Definition split (s : string) : list string := split_from EmptyString s.

(** [s.split(c)] for a one-character separator. *)
Fixpoint split_on_from (c : ascii) (cur : string) (s : string) : list string :=
  match s with
  | EmptyString => [cur]
  | String a r =>
      if Ascii.eqb a c
      then cur :: split_on_from c EmptyString r
      else split_on_from c (cur ++ String a EmptyString) r
  end.

Definition split_on (c : ascii) (s : string) : list string :=
  split_on_from c EmptyString s.

(** [s[1:-1]] *)
Definition slice_1_m1 (s : string) : string :=
  String.substring 1 (String.length s - 2) s.

(** [x[0]] on a list *)
Definition item0 {A : Type} (x : list A) : result A :=
  match x with
  | [] => Err IndexError
  | a :: _ => Ok a
  end.

(** [x[1]] on a list *)
Definition item1 {A : Type} (x : list A) : result A :=
  match x with
  | _ :: a :: _ => Ok a
  | _ => Err IndexError
  end.

(** [x[1:]] and [x[1:3]] on a list *)
Definition slice_1 {A : Type} (x : list A) : list A := List.tl x.
Definition slice_1_3 {A : Type} (x : list A) : list A :=
  List.firstn 2 (List.skipn 1 x).

(** *** [int(s)] *)

Definition digit_val (c : ascii) : option Z :=
  let n := nat_of_ascii c in
  if ((48 <=? n) && (n <=? 57))%nat then Some (Z.of_nat n - 48) else None.

(** Decimal digits, a single underscore allowed between two digits. *)
Fixpoint int_digits (acc : Z) (after_digit : bool) (s : string) : option Z :=
  match s with
  | EmptyString => if after_digit then Some acc else None
  | String c r =>
      if Ascii.eqb c "_"
      then if after_digit then int_digits acc false r else None
      else match digit_val c with
           | Some d => int_digits (10 * acc + d) true r
           | None => None
           end
  end.

(** [int(s)]: surrounding whitespace, an optional sign, then digits.
    [None] stands for ValueError. *)
Definition int (s : string) : option Z :=
  match strip s with
  | String "+" r => int_digits 0 false r
  | String "-" r => option_map Z.opp (int_digits 0 false r)
  | t => int_digits 0 false t
  end.

(** *** ['%02d' % n] and [f'{n:02d}'] *)

Definition digit_char (d : Z) : ascii := ascii_of_nat (48 + Z.to_nat d).

Fixpoint dec_digits (fuel : nat) (n : Z) (acc : string) : string :=
  match fuel with
  | O => acc
  | S k =>
      let acc' := String (digit_char (n mod 10)) acc in
      if n <? 10 then acc' else dec_digits k (n / 10) acc'
  end.

(** [str(n)] for [0 <= n]; [n] has at most [log2 n + 1] digits. *)
Definition str_nonneg (n : Z) : string :=
  dec_digits (S (Z.to_nat (Z.log2 n))) n EmptyString.

Definition format_02d (n : Z) : string :=
  if n <? 0 then String "-" (str_nonneg (- n))
  else
    let s := str_nonneg n in
    if (String.length s <? 2)%nat then String "0" s else s.

(** [divmod(a, b)]: floor division, as [Z.div] and [Z.modulo] for [0 < b]. *)
Definition divmod (a b : Z) : Z * Z := (a / b, a mod b).

(** [for line in f] over the text of a file opened in text mode (line
    terminators already translated to a newline): every line keeps its
    terminator, the last one may lack it. *)
Fixpoint readlines_from (cur : string) (s : string) : list string :=
  match s with
  | EmptyString => match cur with EmptyString => [] | _ => [cur] end
  | String a r =>
      if Ascii.eqb a newline
      then (cur ++ nl) :: readlines_from EmptyString r
      else readlines_from (cur ++ String a EmptyString) r
  end.

Definition readlines (text : string) : list string :=
  readlines_from EmptyString text.

(** [x == y] on lists of strings. *)
Fixpoint list_eqb (x y : list string) : bool :=
  match x, y with
  | [], [] => true
  | a :: x', b :: y' => String.eqb a b && list_eqb x' y'
  | _, _ => false
  end.

(** [enumerate(l)] *)
Definition enumerate {A : Type} (l : list A) : list (nat * A) :=
  List.combine (List.seq 0 (List.length l)) l.

(** A [for] loop whose body may raise. *)
Fixpoint for_each {S A : Type} (body : S -> A -> result S) (l : list A) (s : S)
  : result S :=
  match l with
  | [] => Ok s
  | a :: l' => s' <- body s a ;; for_each body l' s'
  end.

End Py.

(** ** Timecode arithmetic (l.130-140) *)

Definition to_fracs (x : string) : result Z :=
  match Py.split_on ":" x with
  | [minutes; seconds; fracs] =>
      match Py.int minutes, Py.int seconds, Py.int fracs with
      | Some m, Some s, Some f => Ok (m * 60 * 75 + s * 75 + f)
      | _, _, _ => Err (MalformedTimecode x)
      end
  | _ => Err (MalformedTimecode x)
  end.

(** Lines 137-140 of [offset_sum]: the rendering of a frame count. *)
Definition format_fracs (fracs : Z) : string :=
  let '(seconds, fracs) := Py.divmod fracs 75 in
  let '(minutes, seconds) := Py.divmod seconds 60 in
  Py.format_02d minutes ++ ":" ++ Py.format_02d seconds ++ ":" ++ Py.format_02d fracs.

Definition offset_sum (x y : string) : result string :=
  fx <- to_fracs x ;;
  fy <- to_fracs y ;;
  Ok (format_fracs (fx + fy)).

(** ** Line folder (l.31-59) *)

Definition net_braces (s : string) : Z := Py.count "{" s - Py.count "}" s.

Record folder_state : Type := {
  joined_parts : list string;
  parts : list string;
  brace_count : Z
}.

(** The lines that the loop skips: comments and blank lines (l.42). *)
Definition skipped (line : string) : bool :=
  Py.startswith (Py.lstrip line) "//" || String.eqb (Py.strip line) "".

(** One iteration of the loop over the lines of the file (l.41-55). *)
Definition read_line (st : folder_state) (line : string) : result folder_state :=
  let line := Py.rstrip_newline line in
  if skipped line then Ok st
  else
    let parts' := (parts st ++ [line])%list in
    let brace_count' := brace_count st + net_braces line in
    _ <- assert (0 <=? brace_count') UnbalancedBraces ;;
    if brace_count' =? 0
    then Ok {| joined_parts := (joined_parts st ++ [Py.join Py.nl parts'])%list;
               parts := [];
               brace_count := brace_count' |}
    else Ok {| joined_parts := joined_parts st;
               parts := parts';
               brace_count := brace_count' |}.

(** [read_cdrdao_toc], on the text of the file at [path]. *)
Definition read_cdrdao_toc (text : string) : result (list string) :=
  st <- Py.for_each read_line (Py.readlines text)
          {| joined_parts := []; parts := []; brace_count := 0 |} ;;
  _ <- assert (match parts st with [] => true | _ => false end) UnbalancedBraces ;;
  Ok (List.map Py.lstrip (joined_parts st)).

(** ** Track splitter (l.62-75) *)

Definition is_track (p : string) : bool := Py.startswith p "TRACK ".

(** One iteration of the loop of [split_by_track], on [(tracks, group)]. *)
Definition split_step (st : list (list string) * list string) (p : string)
  : list (list string) * list string :=
  let '(tracks, group) := st in
  let '(tracks, group) :=
    if is_track p
    then match group with
         | [] => (tracks, group)
         | _ => ((tracks ++ [group])%list, [])
         end
    else (tracks, group) in
  (tracks, (group ++ [p])%list).

Definition split_by_track (parts : list string) : list (list string) :=
  let '(tracks, group) := List.fold_left split_step parts ([], []) in
  match group with
  | [] => tracks
  | _ => (tracks ++ [group])%list
  end.

(** ** Field extractor (l.78-127) *)

Definition dquote : string := String (ascii_of_nat 34) EmptyString.

Definition undoublequote (s : string) : result string :=
  _ <- assert (Py.startswith s dquote) AssertionError ;;
  _ <- assert (Py.endswith s dquote) AssertionError ;;
  let s := Py.slice_1_m1 s in
  _ <- assert (Py.count (ascii_of_nat 34) s =? 0) AssertionError ;;
  Ok s.

(** [[x[1:] for x in data if x[0] == key]] *)
Fixpoint matching (data : list (list string)) (key : string)
  : result (list (list string)) :=
  match data with
  | [] => Ok []
  | x :: data' =>
      w <- Py.item0 x ;;
      ms <- matching data' key ;;
      Ok (if String.eqb w key then Py.slice_1 x :: ms else ms)
  end.

(** [only_matching_word]; [None] is the [Ok None] result.  The [print] of
    l.89 writes to standard output and is not modelled. *)
Definition only_matching_word {A : Type} (data : list (list string)) (key : string)
    (process : list string -> result A) (missing_ok : bool) : result (option A) :=
  matches <- matching data key ;;
  _ <- assert (List.length matches <? 2)%nat (AmbiguousField key) ;;
  match matches with
  | m :: _ => a <- process m ;; Ok (Some a)
  | [] => _ <- assert missing_ok (MissingField key) ;; Ok None
  end.

Definition get_catalog (data : list (list string)) : result (option string) :=
  only_matching_word data "CATALOG" (fun x => w <- Py.item0 x ;; undoublequote w) true.

Definition get_track_file (data : list (list string)) : result (option (list string)) :=
  only_matching_word data "FILE" (fun x => Ok (Py.slice_1_3 x)) false.

Definition get_start (data : list (list string)) : result (option string) :=
  only_matching_word data "START" Py.item0 true.

Definition get_silence (data : list (list string)) : result (option string) :=
  only_matching_word data "SILENCE" Py.item0 true.

Definition get_isrc (data : list (list string)) : result (option string) :=
  only_matching_word data "ISRC" (fun x => w <- Py.item0 x ;; undoublequote w) true.

Definition has_copy (data : list (list string)) : bool :=
  List.existsb (fun x => Py.list_eqb x ["COPY"]) data.

Definition track_type (data : list (list string)) : result string :=
  words <- Py.item0 data ;;
  w <- Py.item0 words ;;
  _ <- assert (String.eqb w "TRACK") AssertionError ;;
  Py.item1 words.

(** ** Cue emitter (l.143-207) *)

(** The nested function [line] of [make_cuesheet], returning the string
    that it appends to [cuesheet]. *)
Definition line (indent : nat) (parts : list string) : string :=
  Py.join " " (List.repeat " " indent ++ parts)%list.

(** The variables that the track loop updates. *)
Record emitter_state : Type := {
  cuesheet : list string;
  silence_offset : string
}.

Definition append_line (st : emitter_state) (l : string) : emitter_state :=
  {| cuesheet := (cuesheet st ++ [l])%list; silence_offset := silence_offset st |}.

Definition data_wav : string := dquote ++ "data.wav" ++ dquote.
Definition data_1 : string := dquote ++ "data_1" ++ dquote.

(** The body of the loop [for track, data in enumerate(tracks)] (l.156-199).
    [track_type(data)] is pure, so its two calls (l.164, l.194) are one
    here. *)
Definition emit_group (track_1_is_audio : bool) (st : emitter_state)
    (item : nat * list (list string)) : result emitter_state :=
  let '(track, data) := item in
  if (track =? 0)%nat then
    let data_file := if track_1_is_audio then data_wav else data_1 in
    let st := append_line st (line 0 ["FILE"; data_file; "BINARY"]) in
    catalog <- get_catalog data ;;
    match catalog with
    | Some catalog => Ok (append_line st (line 0 ["CATALOG"; catalog]))
    | None => Ok st
    end
  else
    ty <- track_type data ;;
    if String.eqb ty "AUDIO" then
      let st := append_line st
                  (line 1 ["TRACK"; Py.format_02d (Z.of_nat track); "AUDIO"]) in
      let st := if has_copy data then append_line st (line 2 ["FLAGS"; "DCP"])
                else st in
      isrc <- get_isrc data ;;
      let st := match isrc with
                | Some isrc => append_line st (line 2 ["ISRC"; isrc])
                | None => st
                end in
      track_file <- get_track_file data ;;
      match track_file with
      | Some [track_start; _] =>
          let track_start :=
            if String.eqb track_start "0" then "00:00:00" else track_start in
          track_start <- offset_sum track_start (silence_offset st) ;;
          start <- get_start data ;;
          st <- match start with
                | Some (String _ _ as start) =>
                    index_01 <- offset_sum track_start start ;;
                    Ok (append_line
                          (append_line st (line 2 ["INDEX"; "00"; track_start]))
                          (line 2 ["INDEX"; "01"; index_01]))
                | _ => Ok (append_line st (line 2 ["INDEX"; "01"; track_start]))
                end ;;
          silence <- get_silence data ;;
          match silence with
          | Some silence =>
              silence_offset' <- offset_sum (silence_offset st) silence ;;
              Ok {| cuesheet := cuesheet st; silence_offset := silence_offset' |}
          | None => Ok st
          end
      | Some _ => Err ValueError
      | None => Err TypeError
      end
    else if String.eqb ty "MODE1" then
      let st := append_line st
                  (line 1 ["TRACK"; Py.format_02d (Z.of_nat track); "MODE1/2048"]) in
      Ok (append_line st (line 2 ["INDEX"; "01"; "00:00:00"]))
    else Err (UnknownTrackType ty).

(** The list [cuesheet] when [make_cuesheet] reaches its [return] (l.202). *)
Definition cuesheet_lines (parts : list string) : result (list string) :=
  let tracks := split_by_track parts in
  let tracks := List.map (List.map Py.split) tracks in
  tracks_1 <- Py.item1 tracks ;;
  ty <- track_type tracks_1 ;;
  let track_1_is_audio := String.eqb ty "AUDIO" in
  st <- Py.for_each (emit_group track_1_is_audio) (Py.enumerate tracks)
          {| cuesheet := []; silence_offset := "00:00:00" |} ;;
  Ok (cuesheet st ++ [line 0 []])%list.

Definition make_cuesheet (parts : list string) : result string :=
  ls <- cuesheet_lines parts ;;
  Ok (Py.join Py.nl ls).

Definition toc_to_cuesheet (toc : string) : result string :=
  parts <- read_cdrdao_toc toc ;;
  make_cuesheet parts.

(** ** Statements of the specification, as definitions *)

(** The records of a group whose first token is [key] (specification 4.3). *)
Definition first_token_is (key : string) (x : list string) : bool :=
  match x with
  | [] => false
  | w :: _ => String.eqb w key
  end.

(** The records that precede the first TRACK record (specification 4.2). *)
Fixpoint before_first_track (parts : list string) : list string :=
  match parts with
  | [] => []
  | p :: parts' => if is_track p then [] else p :: before_first_track parts'
  end.

Fixpoint from_first_track (parts : list string) : list string :=
  match parts with
  | [] => []
  | p :: parts' => if is_track p then parts else from_first_track parts'
  end.

(** The statement of C2 at one input: the first group is the header
    group, made of the records before the first TRACK record. *)
Definition leading_header_group (parts : list string) : Prop :=
  exists groups, split_by_track parts = before_first_track parts :: groups.

(** The lines that the folder keeps, and the guarantee of specification
    4.1 on them: the running counter of [#'{' - #'}'] is never negative
    and is zero once the input is exhausted. *)
Definition kept_lines (text : string) : list string :=
  List.filter (fun l => negb (skipped l))
    (List.map Py.rstrip_newline (Py.readlines text)).

Fixpoint balanced_from (counter : Z) (lines : list string) : bool :=
  match lines with
  | [] => counter =? 0
  | l :: lines' =>
      let counter' := counter + net_braces l in
      (0 <=? counter') && balanced_from counter' lines'
  end.

Definition balanced (text : string) : bool := balanced_from 0 (kept_lines text).

(** A table of contents whose CD_TEXT block never closes. *)
Definition toc_never_closed : string :=
  "CD_DA" ++ Py.nl ++ "CD_TEXT {" ++ Py.nl ++ "  LANGUAGE_MAP {" ++ Py.nl
  ++ "  }" ++ Py.nl ++ "TRACK AUDIO" ++ Py.nl.

(** The timecodes of the form MM:SS:FF, two decimal digits per field,
    with the values of the three fields (specification 3). *)
Definition mmssff (t : string) : option (Z * Z * Z) :=
  match t with
  | String m1 (String m2 (String k1 (String s1 (String s2 (String k2
      (String f1 (String f2 EmptyString))))))) =>
      match Py.digit_val m1, Py.digit_val m2, Py.digit_val s1,
            Py.digit_val s2, Py.digit_val f1, Py.digit_val f2 with
      | Some a, Some b, Some c, Some d, Some e, Some f =>
          if Ascii.eqb k1 ":" && Ascii.eqb k2 ":"
          then Some (10 * a + b, 10 * c + d, 10 * e + f)
          else None
      | _, _, _, _, _, _ => None
      end
  | _ => None
  end.

(** format(parse(t)): the frame count of [t], rendered (l.137-140). *)
Definition format_parse (t : string) : result string :=
  fracs <- to_fracs t ;;
  Ok (format_fracs fracs).

(** Indentation of an output line: its leading spaces, and the directive
    that follows them. *)
Fixpoint indent_of (l : string) : nat :=
  match l with
  | String " " r => S (indent_of r)
  | _ => O
  end.

Definition directive (l : string) : option string := List.hd_error (Py.split l).

(** The nesting levels as the specification words them (4.5): FILE,
    CATALOG and TRACK at level 0, FLAGS, ISRC and INDEX one level
    deeper. *)
Definition stated_level (d : string) : option nat :=
  if String.eqb d "FILE" || String.eqb d "CATALOG" || String.eqb d "TRACK"
  then Some 0%nat
  else if String.eqb d "FLAGS" || String.eqb d "ISRC" || String.eqb d "INDEX"
  then Some 1%nat
  else None.

(** The nesting levels that [make_cuesheet] passes to [line]. *)
Definition emitted_level (d : string) : option nat :=
  if String.eqb d "FILE" || String.eqb d "CATALOG" then Some 0%nat
  else if String.eqb d "TRACK" then Some 1%nat
  else if String.eqb d "FLAGS" || String.eqb d "ISRC" || String.eqb d "INDEX"
  then Some 2%nat
  else None.

(** A line is blank, or starts with two spaces per level of its
    directive. *)
Definition indented_by (level : string -> option nat) (l : string) : bool :=
  match directive l with
  | None => String.eqb l ""
  | Some d =>
      match level d with
      | Some k => (indent_of l =? 2 * k)%nat
      | None => false
      end
  end.

(** The records of a disc with one audio track. *)
Definition parts_one_track : list string :=
  ["CD_DA"; "TRACK AUDIO"; "NO COPY";
   "FILE " ++ dquote ++ "data.wav" ++ dquote ++ " 0 03:00:00"].

(** The start that the FILE record declares: a bare [0] stands for
    00:00:00 (l.175-176). *)
Definition declared_start (file_start : string) : string :=
  if String.eqb file_start "0" then "00:00:00" else file_start.

(** The lines of an audio track that precede its INDEX lines. *)
Definition audio_head (track : nat) (data : list (list string))
    (isrc : option string) : list string :=
  ([("  TRACK " ++ Py.format_02d (Z.of_nat track) ++ " AUDIO")%string]
     ++ (if has_copy data then ["    FLAGS DCP"] else [])
     ++ match isrc with
        | Some isrc => [("    ISRC " ++ isrc)%string]
        | None => []
        end)%list.

(** The silence offset handed to the next group. *)
Definition next_silence_offset (silence_offset : string) (silence : option string)
  : result string :=
  match silence with
  | Some silence => offset_sum silence_offset silence
  | None => Ok silence_offset
  end.

(** A group without its SILENCE records. *)
Definition without_silence (data : list (list string)) : list (list string) :=
  List.filter (fun x => negb (first_token_is "SILENCE" x)) data.

(** The second track of a disc: audio, with a pregap, after a first track
    that declared thirty frames of silence. *)
Definition data_track_2 : list (list string) :=
  [["TRACK"; "AUDIO"]; ["NO"; "COPY"];
   ["FILE"; dquote ++ "data.wav" ++ dquote; "03:00:00"; "04:00:00"];
   ["START"; "00:02:00"]].

(** An audio group that declares silence, at the third position. *)
Definition data_track_3 : list (list string) :=
  [["TRACK"; "AUDIO"]; ["COPY"]; ["SILENCE"; "00:00:10"];
   ["FILE"; dquote ++ "data.wav" ++ dquote; "07:00:00"; "01:00:00"]].

(** Strings made of decimal digits only. *)
Fixpoint all_digits (s : string) : bool :=
  match s with
  | EmptyString => true
  | String c r =>
      match Py.digit_val c with
      | Some _ => all_digits r
      | None => false
      end
  end.

(** A string with a character that is not whitespace. *)
Fixpoint has_token (s : string) : bool :=
  match s with
  | EmptyString => false
  | String c r => negb (Py.isspace c) || has_token r
  end.

(** The lines of one block: the running brace counter stays positive up
    to the last line, where it returns to zero. *)
Fixpoint open_until_last (counter : Z) (lines : list string) : bool :=
  match lines with
  | [] => false
  | l :: lines' =>
      let counter' := counter + net_braces l in
      match lines' with
      | [] => counter' =? 0
      | _ => (0 <? counter') && open_until_last counter' lines'
      end
  end.

(** A run of [k] spaces. *)
Fixpoint spaces (k : nat) : string :=
  match k with
  | O => EmptyString
  | S k' => String " " (spaces k')
  end.

(** The TRACK lines of the output, and the one that the group at
    position [k] is expected to produce. *)
Definition is_track_line (l : string) : bool := Py.startswith l "  TRACK ".

Definition track_line (item : nat * list (list string)) : string :=
  let '(k, data) := item in
  line 1 ["TRACK"; Py.format_02d (Z.of_nat k);
          match track_type data with
          | Ok ty => if String.eqb ty "AUDIO" then "AUDIO" else "MODE1/2048"
          | Err _ => ""
          end].

(** ** Runs of the model *)

Definition toc_sample : string :=
  "CD_DA" ++ Py.nl ++
  "CATALOG " ++ dquote ++ "1234567890123" ++ dquote ++ Py.nl ++
  "// Track 1" ++ Py.nl ++
  "TRACK AUDIO" ++ Py.nl ++
  "COPY" ++ Py.nl ++
  "ISRC " ++ dquote ++ "US1234567890" ++ dquote ++ Py.nl ++
  "CD_TEXT {" ++ Py.nl ++
  "  LANGUAGE 0 {" ++ Py.nl ++
  "    ISRC " ++ dquote ++ dquote ++ Py.nl ++
  "  }" ++ Py.nl ++
  "}" ++ Py.nl ++
  "SILENCE 00:00:30" ++ Py.nl ++
  "FILE " ++ dquote ++ "data.wav" ++ dquote ++ " 0 03:00:00" ++ Py.nl ++
  Py.nl ++
  "TRACK AUDIO" ++ Py.nl ++
  "NO COPY" ++ Py.nl ++
  "FILE " ++ dquote ++ "data.wav" ++ dquote ++ " 03:00:00 04:00:00" ++ Py.nl ++
  "START 00:02:00" ++ Py.nl ++
  "TRACK MODE1" ++ Py.nl.

Definition cue_sample : string :=
  "FILE " ++ dquote ++ "data.wav" ++ dquote ++ " BINARY" ++ Py.nl ++
  "CATALOG 1234567890123" ++ Py.nl ++
  "  TRACK 01 AUDIO" ++ Py.nl ++
  "    FLAGS DCP" ++ Py.nl ++
  "    ISRC US1234567890" ++ Py.nl ++
  "    INDEX 01 00:00:00" ++ Py.nl ++
  "  TRACK 02 AUDIO" ++ Py.nl ++
  "    INDEX 00 03:00:30" ++ Py.nl ++
  "    INDEX 01 03:02:30" ++ Py.nl ++
  "  TRACK 03 MODE1/2048" ++ Py.nl ++
  "    INDEX 01 00:00:00" ++ Py.nl.

Example toc_to_cuesheet_sample : toc_to_cuesheet toc_sample = Ok cue_sample.
Proof. vm_compute. reflexivity. Qed.

Example offset_sum_carry_frames :
  offset_sum "00:00:74" "00:00:01" = Ok "00:01:00".
Proof. reflexivity. Qed.

Example offset_sum_carry_seconds :
  offset_sum "00:59:74" "00:00:01" = Ok "01:00:00".
Proof. reflexivity. Qed.

Example offset_sum_unpadded :
  offset_sum "1:2:3" "00:00:00" = Ok "01:02:03".
Proof. reflexivity. Qed.

Example offset_sum_negative :
  offset_sum "-1:00:00" "00:00:00" = Ok "-1:00:00".
Proof. reflexivity. Qed.

Example to_fracs_two_fields : to_fracs "00:00" = Err (MalformedTimecode "00:00").
Proof. reflexivity. Qed.

Example format_02d_100 : Py.format_02d 100 = "100".
Proof. reflexivity. Qed.

(** ** Properties *)

Lemma bind_ok {A B : Type} (r : result A) (k : A -> result B) (a : A) :
  r = Ok a -> bind r k = k a.
Proof. intros ->. reflexivity. Qed.

Lemma bind_err {A B : Type} (r : result A) (k : A -> result B) (e : error) :
  r = Err e -> bind r k = Err e.
Proof. intros ->. reflexivity. Qed.

(** *** Field extractor *)

Lemma matching_filter (data : list (list string)) (key : string) :
  Forall (fun x => x <> []) data ->
  matching data key = Ok (List.map Py.slice_1 (List.filter (first_token_is key) data)).
Proof.
  induction 1 as [| x data Hx _ IH]; [reflexivity |].
  destruct x as [| w x]; [congruence |].
  cbn [matching Py.item0 bind List.filter first_token_is].
  rewrite IH. cbn [bind].
  destruct (String.eqb w key); reflexivity.
Qed.

(** The extractor, by the records whose first token is the key. *)
Lemma only_matching_word_by_filter {A : Type} (data : list (list string))
    (key : string) (process : list string -> result A) (missing_ok : bool) :
  Forall (fun x => x <> []) data ->
  only_matching_word data key process missing_ok =
  match List.filter (first_token_is key) data with
  | [] => if missing_ok then Ok None else Err (MissingField key)
  | [x] => a <- process (Py.slice_1 x) ;; Ok (Some a)
  | _ :: _ :: _ => Err (AmbiguousField key)
  end.
Proof.
  intros Hdata. unfold only_matching_word.
  rewrite (matching_filter data key Hdata). cbn [bind].
  destruct (List.filter (first_token_is key) data) as [| x [| y l]];
    [destruct missing_ok |..]; reflexivity.
Qed.

(** C5. In a group whose records all have a first token, extraction of
    [key] fails with AmbiguousField(key) when two or more records have
    [key] as first token, applies the transform to the remaining tokens
    of the record when exactly one has, and with no such record fails
    with MissingField(key) if the field is required and is absent
    otherwise. *)
Theorem only_matching_word_cases :
  forall (A : Type) (data : list (list string)) (key : string)
         (process : list string -> result A) (missing_ok : bool),
    Forall (fun x => x <> []) data ->
    only_matching_word data key process missing_ok =
    match List.filter (first_token_is key) data with
    | [] => if missing_ok then Ok None else Err (MissingField key)
    | [x] => a <- process (Py.slice_1 x) ;; Ok (Some a)
    | _ :: _ :: _ => Err (AmbiguousField key)
    end.
Proof.
  intros A data key process missing_ok Hdata.
  unfold only_matching_word.
  rewrite (matching_filter data key Hdata). cbn [bind].
  destruct (List.filter (first_token_is key) data) as [| x [| y l]].
  - destruct missing_ok; reflexivity.
  - reflexivity.
  - reflexivity.
Qed.

Lemma only_matching_word_cases_witness :
  get_isrc [["TRACK"; "AUDIO"]; ["ISRC"; dquote ++ "A" ++ dquote];
            ["ISRC"; dquote ++ "B" ++ dquote]]
  = Err (AmbiguousField "ISRC").
Proof.
  unfold get_isrc.
  rewrite only_matching_word_cases.
  - reflexivity.
  - repeat constructor; discriminate.
Defined.

Example get_catalog_twice :
  get_catalog [["CD_DA"]; ["CATALOG"; dquote ++ "1" ++ dquote];
               ["CATALOG"; dquote ++ "2" ++ dquote]]
  = Err (AmbiguousField "CATALOG").
Proof. reflexivity. Qed.

Example get_isrc_none : get_isrc [["TRACK"; "AUDIO"]; ["NO"; "COPY"]] = Ok None.
Proof. reflexivity. Qed.

Example get_track_file_missing :
  get_track_file [["TRACK"; "AUDIO"]] = Err (MissingField "FILE").
Proof. reflexivity. Qed.

(** *** Track splitter *)

Lemma split_fold_group (r : list string) :
  forall (tracks : list (list string)) (group : list string),
    group <> [] ->
    (let '(t, g) := List.fold_left split_step r (tracks, group) in
     match g with [] => t | _ => (t ++ [g])%list end)
    = (tracks
         ++ (group ++ before_first_track r)
         :: split_by_track (from_first_track r))%list.
Proof.
  induction r as [| p r IH]; intros tracks group Hgroup.
  - cbn. rewrite app_nil_r. destruct group; [congruence | reflexivity].
  - cbn [List.fold_left before_first_track from_first_track].
    unfold split_step at 2. destruct (is_track p) eqn:Hp.
    + destruct group as [| g0 group]; [congruence |].
      rewrite IH by discriminate.
      rewrite app_nil_r, <- app_assoc. cbn [app]. do 2 f_equal.
      unfold split_by_track at 2. cbn [List.fold_left].
      unfold split_step at 2. rewrite Hp. cbn [app].
      rewrite IH by discriminate. reflexivity.
    + rewrite IH by (destruct group; discriminate).
      rewrite <- app_assoc. reflexivity.
Qed.

(** The splitter as a recursion on the records: a group runs up to the
    next TRACK record. *)
Lemma split_by_track_cons (p : string) (r : list string) :
  split_by_track (p :: r)
  = (p :: before_first_track r) :: split_by_track (from_first_track r).
Proof.
  unfold split_by_track at 1. cbn [List.fold_left].
  assert (Hstep : split_step ([], []) p = ([], [p])).
  { unfold split_step. destruct (is_track p); reflexivity. }
  rewrite Hstep. rewrite split_fold_group by discriminate. reflexivity.
Qed.

Lemma split_by_track_groups_nonempty (parts : list string) :
  Forall (fun g => g <> []) (split_by_track parts).
Proof.
  remember (List.length parts) as n eqn:Hn.
  revert parts Hn.
  induction n as [n IH] using lt_wf_ind. intros parts Hn.
  destruct parts as [| p r]; [constructor |].
  rewrite split_by_track_cons. constructor; [discriminate |].
  apply (IH (List.length (from_first_track r))); [| reflexivity].
  subst n. cbn [List.length].
  clear. induction r as [| q r IHr]; cbn; [lia |].
  destruct (is_track q); cbn [List.length]; lia.
Qed.

Lemma from_first_track_no_track (parts : list string) :
  Forall (fun p => is_track p = false) parts ->
  before_first_track parts = parts /\ from_first_track parts = [].
Proof.
  induction 1 as [| p parts Hp _ [IH1 IH2]]; [split; reflexivity |].
  cbn. rewrite Hp, IH1, IH2. split; reflexivity.
Qed.

(** A table of contents without a TRACK record splits into at most one
    group. *)
Lemma split_by_track_no_track (parts : list string) :
  Forall (fun p => is_track p = false) parts ->
  (List.length (split_by_track parts) < 2)%nat.
Proof.
  intros H. destruct parts as [| p r]; [cbn; lia |].
  rewrite split_by_track_cons.
  inversion H as [| ? ? _ Hr]; subst.
  destruct (from_first_track_no_track r Hr) as [_ ->]. cbn. lia.
Qed.

(** C2, as stated, fails: when the first record is a TRACK record the
    splitter yields no header group, and that record begins group 0. *)
Lemma split_by_track_no_empty_header :
  ~ leading_header_group ["TRACK AUDIO"; "NO COPY"; "TRACK MODE1"].
Proof.
  intros [groups H]. vm_compute in H. discriminate H.
Qed.

(** C2, amended. When at least one record precedes the first TRACK
    record, group 0 is the header group and holds exactly the records
    before the first TRACK record; when the first record is a TRACK
    record there is no header group and that record begins group 0.  No
    group is empty. *)
Theorem split_by_track_header (parts : list string) :
  (before_first_track parts <> [] ->
   split_by_track parts
   = before_first_track parts :: split_by_track (from_first_track parts))
  /\ (forall p rest, parts = p :: rest -> is_track p = true ->
      split_by_track parts
      = (p :: before_first_track rest) :: split_by_track (from_first_track rest))
  /\ Forall (fun g => g <> []) (split_by_track parts).
Proof.
  split; [| split].
  - destruct parts as [| p r]; [cbn; congruence |].
    rewrite split_by_track_cons.
    cbn [before_first_track from_first_track].
    destruct (is_track p) eqn:Hp; [congruence | reflexivity].
  - intros p rest -> _. apply split_by_track_cons.
  - apply split_by_track_groups_nonempty.
Qed.

Lemma split_by_track_header_witness :
  split_by_track ["CD_DA"; "CATALOG 1"; "TRACK AUDIO"; "NO COPY"]
  = ["CD_DA"; "CATALOG 1"] :: split_by_track ["TRACK AUDIO"; "NO COPY"].
Proof.
  apply (proj1 (split_by_track_header
                  ["CD_DA"; "CATALOG 1"; "TRACK AUDIO"; "NO COPY"])).
  discriminate.
Defined.

(** *** Cue emitter: the groups it needs *)

Lemma item1_short {A : Type} (l : list A) :
  (List.length l < 2)%nat -> Py.item1 l = Err IndexError.
Proof.
  destruct l as [| a [| b l]]; cbn; intros H; try reflexivity; lia.
Qed.

(** C9. [tracks[1]] is read before the track loop, so a table of
    contents that folds and splits into fewer than two groups makes the
    conversion fail with an index out of range; no header-only cue sheet
    is produced. *)
Theorem make_cuesheet_needs_a_track :
  forall (toc : string) (parts : list string),
    read_cdrdao_toc toc = Ok parts ->
    (List.length (split_by_track parts) < 2)%nat ->
    make_cuesheet parts = Err IndexError
    /\ toc_to_cuesheet toc = Err IndexError.
Proof.
  intros toc parts Hread Hlen.
  assert (Hmake : make_cuesheet parts = Err IndexError).
  { unfold make_cuesheet, cuesheet_lines.
    rewrite (item1_short (List.map (List.map Py.split) (split_by_track parts)))
      by (rewrite List.length_map; exact Hlen).
    reflexivity. }
  split; [exact Hmake |].
  unfold toc_to_cuesheet. rewrite Hread. exact Hmake.
Qed.

Lemma make_cuesheet_needs_a_track_witness :
  make_cuesheet ["CD_DA"; "CATALOG 1"] = Err IndexError
  /\ toc_to_cuesheet ("CD_DA" ++ Py.nl ++ "CATALOG 1" ++ Py.nl) = Err IndexError.
Proof.
  apply make_cuesheet_needs_a_track.
  - vm_compute. reflexivity.
  - vm_compute. reflexivity.
Defined.

Example make_cuesheet_no_track_at_all :
  forall parts,
    Forall (fun p => is_track p = false) parts ->
    (List.length (split_by_track parts) < 2)%nat.
Proof. exact split_by_track_no_track. Qed.

(** *** Cue emitter: data tracks *)

(** C8. A MODE1 group at position [track] appends TRACK NN MODE1/2048
    and a single INDEX 01 at 00:00:00, whatever the silence offset so
    far and whatever other records the group has; the silence offset is
    left as it was. *)
Theorem emit_group_mode1 :
  forall (track_1_is_audio : bool) (st : emitter_state) (track : nat)
         (data : list (list string)),
    track <> 0%nat ->
    track_type data = Ok "MODE1" ->
    emit_group track_1_is_audio st (track, data)
    = Ok {| cuesheet :=
              (cuesheet st
                 ++ [("  TRACK " ++ Py.format_02d (Z.of_nat track) ++ " MODE1/2048")%string;
                     "    INDEX 01 00:00:00"])%list;
            silence_offset := silence_offset st |}.
Proof.
  intros b st track data Htrack Hty.
  unfold emit_group.
  destruct (Nat.eqb_spec track 0) as [-> | _]; [congruence |].
  rewrite Hty. cbn [bind String.eqb Ascii.eqb Bool.eqb].
  unfold append_line. cbn [cuesheet silence_offset].
  rewrite <- app_assoc. reflexivity.
Qed.

Lemma emit_group_mode1_witness :
  emit_group true
    {| cuesheet := ["FILE x BINARY"]; silence_offset := "00:02:00" |}
    (2%nat, [["TRACK"; "MODE1"]; ["START"; "00:01:00"]; ["SILENCE"; "00:00:10"]])
  = Ok {| cuesheet :=
            ["FILE x BINARY"; "  TRACK 02 MODE1/2048"; "    INDEX 01 00:00:00"];
          silence_offset := "00:02:00" |}.
Proof.
  apply (emit_group_mode1 true
           {| cuesheet := ["FILE x BINARY"]; silence_offset := "00:02:00" |} 2).
  - discriminate.
  - reflexivity.
Defined.

(** *** Line folder *)

Lemma read_lines_balanced (ls : list string) :
  forall st : folder_state,
    (parts st = [] <-> brace_count st = 0) ->
    let kept := List.filter (fun l => negb (skipped l))
                  (List.map Py.rstrip_newline ls) in
    if balanced_from (brace_count st) kept
    then exists st', Py.for_each read_line ls st = Ok st' /\ parts st' = []
    else Py.for_each read_line ls st = Err UnbalancedBraces
         \/ exists st', Py.for_each read_line ls st = Ok st' /\ parts st' <> [].
Proof.
  induction ls as [| l ls IH]; intros st Hinv; cbn zeta.
  - cbn. destruct (Z.eqb_spec (brace_count st) 0) as [H0 | H0].
    + exists st. split; [reflexivity | tauto].
    + right. exists st. split; [reflexivity | tauto].
  - cbn [List.map List.filter Py.for_each]. unfold read_line at 1 3 5.
    destruct (skipped (Py.rstrip_newline l)) eqn:Hskip; cbn [negb bind].
    + apply IH. exact Hinv.
    + cbn [balanced_from].
      set (c := brace_count st + net_braces (Py.rstrip_newline l)).
      destruct (Z.leb_spec 0 c) as [Hc | Hc]; cbn [assert bind andb].
      * destruct (Z.eqb_spec c 0) as [Hz | Hz].
        -- apply (IH {| joined_parts := _; parts := []; brace_count := c |}).
           cbn. tauto.
        -- apply (IH {| joined_parts := _; parts := _; brace_count := c |}).
           cbn. split; [| tauto].
           intros H. destruct (parts st); discriminate H.
      * left. reflexivity.
Qed.

Lemma read_cdrdao_toc_balanced (text : string) :
  balanced text = true -> exists parts, read_cdrdao_toc text = Ok parts.
Proof.
  intros Hb.
  pose proof (read_lines_balanced (Py.readlines text)
                {| joined_parts := []; parts := []; brace_count := 0 |}) as H.
  cbn [parts brace_count] in H. specialize (H (conj (fun _ => eq_refl) (fun _ => eq_refl))).
  cbn zeta in H. unfold balanced, kept_lines in Hb. rewrite Hb in H.
  destruct H as [st' [Hrun Hparts]].
  unfold read_cdrdao_toc. rewrite Hrun. cbn [bind]. rewrite Hparts.
  eexists. reflexivity.
Qed.

(** C6. When the running brace counter of the kept lines goes negative,
    or is not zero once the input is exhausted, the folder fails with
    UnbalancedBraces and so does the whole conversion: no output is
    produced. *)
Theorem read_cdrdao_toc_unbalanced :
  forall text : string,
    balanced text = false ->
    read_cdrdao_toc text = Err UnbalancedBraces
    /\ toc_to_cuesheet text = Err UnbalancedBraces.
Proof.
  intros text Hb.
  assert (Hread : read_cdrdao_toc text = Err UnbalancedBraces).
  { pose proof (read_lines_balanced (Py.readlines text)
                  {| joined_parts := []; parts := []; brace_count := 0 |}) as H.
    cbn [parts brace_count] in H.
    specialize (H (conj (fun _ => eq_refl) (fun _ => eq_refl))).
    cbn zeta in H. unfold balanced, kept_lines in Hb. rewrite Hb in H.
    unfold read_cdrdao_toc.
    destruct H as [Hrun | [st' [Hrun Hparts]]]; rewrite Hrun; cbn [bind].
    - reflexivity.
    - destruct (parts st'); [congruence | reflexivity]. }
  split; [exact Hread |].
  unfold toc_to_cuesheet. rewrite Hread. reflexivity.
Qed.

Lemma read_cdrdao_toc_unbalanced_witness :
  read_cdrdao_toc toc_never_closed = Err UnbalancedBraces
  /\ toc_to_cuesheet toc_never_closed = Err UnbalancedBraces.
Proof.
  apply read_cdrdao_toc_unbalanced. vm_compute. reflexivity.
Defined.

Example read_cdrdao_toc_negative :
  read_cdrdao_toc ("CD_DA" ++ Py.nl ++ "}" ++ Py.nl ++ "{" ++ Py.nl)
  = Err UnbalancedBraces.
Proof. reflexivity. Qed.

Example read_cdrdao_toc_folds :
  read_cdrdao_toc ("CD_DA" ++ Py.nl ++ "  CD_TEXT {" ++ Py.nl ++ "// {" ++ Py.nl
                   ++ "  ISRC x" ++ Py.nl ++ "}" ++ Py.nl ++ Py.nl ++ "TRACK AUDIO")
  = Ok ["CD_DA"; "CD_TEXT {" ++ Py.nl ++ "  ISRC x" ++ Py.nl ++ "}"; "TRACK AUDIO"].
Proof. reflexivity. Qed.

(** *** Timecode arithmetic *)

Lemma digit_val_cases (c : ascii) (d : Z) :
  Py.digit_val c = Some d ->
  List.In (c, d)
    [("0"%char, 0); ("1"%char, 1); ("2"%char, 2); ("3"%char, 3); ("4"%char, 4);
     ("5"%char, 5); ("6"%char, 6); ("7"%char, 7); ("8"%char, 8); ("9"%char, 9)].
Proof.
  destruct c as [[] [] [] [] [] [] [] []]; cbv; intros H;
    try discriminate H; injection H as <-; tauto.
Qed.

Ltac digit_cases H :=
  apply digit_val_cases in H; cbn [List.In] in H;
  repeat (destruct H as [H | H]; [injection H as <- <- |]); [.. | contradiction H].

Lemma two_digits (c1 c2 : ascii) (d1 d2 : Z) :
  Py.digit_val c1 = Some d1 ->
  Py.digit_val c2 = Some d2 ->
  Py.int (String c1 (String c2 EmptyString)) = Some (10 * d1 + d2)
  /\ Py.format_02d (10 * d1 + d2) = String c1 (String c2 EmptyString)
  /\ 0 <= 10 * d1 + d2 < 100.
Proof.
  intros H1 H2. digit_cases H1; digit_cases H2; vm_compute; intuition congruence.
Qed.

Lemma digit_not_colon (c : ascii) (d : Z) :
  Py.digit_val c = Some d -> Ascii.eqb c ":" = false.
Proof. intros H. digit_cases H; reflexivity. Qed.

Lemma divmod_frames (m s f : Z) :
  0 <= s < 60 -> 0 <= f < 75 ->
  Py.divmod (m * 60 * 75 + s * 75 + f) 75 = (m * 60 + s, f)
  /\ Py.divmod (m * 60 + s) 60 = (m, s).
Proof.
  intros Hs Hf. unfold Py.divmod. split; f_equal.
  - symmetry. apply (Z.div_unique _ 75 _ f); lia.
  - symmetry. apply (Z.mod_unique _ 75 (m * 60 + s) f); lia.
  - symmetry. apply (Z.div_unique _ 60 _ s); lia.
  - symmetry. apply (Z.mod_unique _ 60 m s); lia.
Qed.

Lemma to_fracs_mmssff (t : string) (m s f : Z) :
  mmssff t = Some (m, s, f) ->
  to_fracs t = Ok (m * 60 * 75 + s * 75 + f)
  /\ t = Py.format_02d m ++ ":" ++ Py.format_02d s ++ ":" ++ Py.format_02d f
  /\ 0 <= m < 100 /\ 0 <= s < 100 /\ 0 <= f < 100.
Proof.
  unfold mmssff. intros H.
  destruct t as [| m1 [| m2 [| k1 [| s1 [| s2 [| k2 [| f1 [| f2 [| ? ?]]]]]]]]];
    try discriminate H.
  destruct (Py.digit_val m1) as [a |] eqn:Hm1; [| discriminate H].
  destruct (Py.digit_val m2) as [b |] eqn:Hm2; [| discriminate H].
  destruct (Py.digit_val s1) as [c |] eqn:Hs1; [| discriminate H].
  destruct (Py.digit_val s2) as [d |] eqn:Hs2; [| discriminate H].
  destruct (Py.digit_val f1) as [e |] eqn:Hf1; [| discriminate H].
  destruct (Py.digit_val f2) as [g |] eqn:Hf2; [| discriminate H].
  destruct (Ascii.eqb_spec k1 ":") as [-> |]; [| discriminate H].
  destruct (Ascii.eqb_spec k2 ":") as [-> |]; [| discriminate H].
  assert (Hm : m = 10 * a + b) by (injection H; intros; symmetry; assumption).
  assert (Hs : s = 10 * c + d) by (injection H; intros; symmetry; assumption).
  assert (Hf : f = 10 * e + g) by (injection H; intros; symmetry; assumption).
  clear H. subst m s f.
  destruct (two_digits _ _ _ _ Hm1 Hm2) as [Im [Fm Bm]].
  destruct (two_digits _ _ _ _ Hs1 Hs2) as [Is [Fs Bs]].
  destruct (two_digits _ _ _ _ Hf1 Hf2) as [If [Ff Bf]].
  split; [| split; [| tauto]].
  - unfold to_fracs, Py.split_on. cbn [Py.split_on_from].
    rewrite (digit_not_colon _ _ Hm1), (digit_not_colon _ _ Hm2),
      (digit_not_colon _ _ Hs1), (digit_not_colon _ _ Hs2),
      (digit_not_colon _ _ Hf1), (digit_not_colon _ _ Hf2).
    cbn [Ascii.eqb Bool.eqb String.append]. rewrite Im, Is, If. reflexivity.
  - rewrite Fm, Fs, Ff. reflexivity.
Qed.

Lemma format_fracs_canonical (m s f : Z) :
  0 <= s < 60 -> 0 <= f < 75 ->
  format_fracs (m * 60 * 75 + s * 75 + f)
  = Py.format_02d m ++ ":" ++ Py.format_02d s ++ ":" ++ Py.format_02d f.
Proof.
  intros Hs Hf. unfold format_fracs.
  destruct (divmod_frames m s f Hs Hf) as [-> ->]. reflexivity.
Qed.

(** C3, as stated, fails: a seconds field of 60 or more is carried into
    the minutes although the frames field is below 75. *)
Lemma format_parse_seconds_carry :
  mmssff "00:60:00" = Some (0, 60, 0)
  /\ 0 <= 0 < 75
  /\ format_parse "00:60:00" = Ok "01:00:00"
  /\ format_parse "00:60:00" <> Ok "00:60:00".
Proof.
  repeat split; try reflexivity; try lia. discriminate.
Qed.

(** C3, amended. For every timecode [t] of the form MM:SS:FF (two
    decimal digits per field) whose seconds field is in [0,60) and whose
    frames field is in [0,75), formatting the frame count obtained by
    parsing [t] yields [t] again. *)
Theorem format_parse_roundtrip :
  forall (t : string) (m s f : Z),
    mmssff t = Some (m, s, f) ->
    0 <= s < 60 ->
    0 <= f < 75 ->
    format_parse t = Ok t.
Proof.
  intros t m s f Ht Hs Hf.
  destruct (to_fracs_mmssff t m s f Ht) as [Hparse [Htext _]].
  unfold format_parse. rewrite Hparse. cbn [bind].
  rewrite (format_fracs_canonical m s f Hs Hf). rewrite <- Htext. reflexivity.
Qed.

Lemma format_parse_roundtrip_witness : format_parse "73:59:74" = Ok "73:59:74".
Proof.
  apply (format_parse_roundtrip "73:59:74" 73 59 74).
  - reflexivity.
  - lia.
  - lia.
Defined.

(** C4, as stated, fails: a timecode that parses need not come back
    unchanged from the addition of zero, which normalises it. *)
Lemma offset_sum_zero_normalises :
  to_fracs "00:60:00" = Ok 4500
  /\ offset_sum "00:60:00" "00:00:00" = Ok "01:00:00"
  /\ offset_sum "00:60:00" "00:00:00" <> Ok "00:60:00".
Proof.
  repeat split; try reflexivity. discriminate.
Qed.

(** C4, amended. For every timecode [t] of the form MM:SS:FF (two
    decimal digits per field) with seconds in [0,60) and frames in
    [0,75), adding 00:00:00 yields [t]; and the frame count zero renders
    as 00:00:00. *)
Theorem offset_sum_zero_identity :
  forall (t : string) (m s f : Z),
    mmssff t = Some (m, s, f) ->
    0 <= s < 60 ->
    0 <= f < 75 ->
    offset_sum t "00:00:00" = Ok t
    /\ format_fracs 0 = "00:00:00".
Proof.
  intros t m s f Ht Hs Hf.
  destruct (to_fracs_mmssff t m s f Ht) as [Hparse [Htext _]].
  assert (Hzero : to_fracs "00:00:00" = Ok 0) by reflexivity.
  unfold offset_sum. rewrite Hparse, Hzero. cbn [bind].
  rewrite Z.add_0_r.
  rewrite (format_fracs_canonical m s f Hs Hf), <- Htext.
  split; reflexivity.
Qed.

Lemma offset_sum_zero_identity_witness :
  offset_sum "12:34:56" "00:00:00" = Ok "12:34:56"
  /\ format_fracs 0 = "00:00:00".
Proof.
  apply (offset_sum_zero_identity "12:34:56" 12 34 56).
  - reflexivity.
  - lia.
  - lia.
Defined.

(** *** Cue emitter: indentation *)

Lemma append_line_indented (st : emitter_state) (l : string) :
  Forall (fun l => indented_by emitted_level l = true) (cuesheet st) ->
  indented_by emitted_level l = true ->
  Forall (fun l => indented_by emitted_level l = true) (cuesheet (append_line st l)).
Proof.
  intros Hst Hl. unfold append_line. cbn [cuesheet].
  apply Forall_app. split; [exact Hst | constructor; [exact Hl | constructor]].
Qed.

Lemma for_each_invariant {S A : Type} (P : S -> Prop) (body : S -> A -> result S) :
  (forall s a s', P s -> body s a = Ok s' -> P s') ->
  forall l s s', P s -> Py.for_each body l s = Ok s' -> P s'.
Proof.
  intros Hbody. induction l as [| a l IH]; intros s s' Hs Hrun; cbn in Hrun.
  - injection Hrun as <-. exact Hs.
  - destruct (body s a) as [s1 | e] eqn:Hstep; cbn in Hrun; [| discriminate Hrun].
    apply (IH s1 s'); [apply (Hbody s a); assumption | exact Hrun].
Qed.

Ltac run_ok :=
  repeat
    match goal with
    | H : Ok _ = Ok _ |- _ => injection H as <-
    | H : Err _ = Ok _ |- _ => discriminate H
    | H : bind ?r _ = Ok _ |- _ =>
        let E := fresh "E" in
        destruct r eqn:E; cbn [bind] in H; [| discriminate H]
    | H : (if ?b then _ else _) = Ok _ |- _ =>
        let E := fresh "E" in destruct b eqn:E
    | H : match ?x with _ => _ end = Ok _ |- _ =>
        let E := fresh "E" in destruct x eqn:E
    end.

Lemma emit_group_indented (b : bool) (st st' : emitter_state)
    (item : nat * list (list string)) :
  Forall (fun l => indented_by emitted_level l = true) (cuesheet st) ->
  emit_group b st item = Ok st' ->
  Forall (fun l => indented_by emitted_level l = true) (cuesheet st').
Proof.
  intros Hst H. unfold emit_group in H. destruct item as [track data].
  destruct (has_copy data); cbv zeta in H; run_ok;
    cbn [cuesheet];
    repeat match goal with
           | |- context [match ?x with Some _ => _ | None => _ end] =>
               is_var x; destruct x
           end;
    repeat (apply append_line_indented; [| try (destruct b; reflexivity)]);
    try exact Hst.
Qed.

(** C1, as stated, fails: TRACK lines are not at level 0 but carry two
    spaces, and INDEX lines carry four spaces, not two. *)
Lemma cuesheet_track_is_indented :
  cuesheet_lines parts_one_track
  = Ok ["FILE " ++ dquote ++ "data.wav" ++ dquote ++ " BINARY";
        "  TRACK 01 AUDIO";
        "    INDEX 01 00:00:00";
        ""]
  /\ indent_of "  TRACK 01 AUDIO" = 2%nat
  /\ indented_by stated_level "  TRACK 01 AUDIO" = false
  /\ indent_of "    INDEX 01 00:00:00" = 4%nat
  /\ indented_by stated_level "    INDEX 01 00:00:00" = false.
Proof. repeat split; vm_compute; reflexivity. Qed.

(** C1, amended. In every successful conversion each output line is
    indented by two spaces per nesting level, with FILE and CATALOG at
    level 0 (no indent), TRACK at level 1 (two spaces) and the
    track-scoped FLAGS, ISRC and INDEX one level deeper, at level 2 (four
    spaces); the only other line is the empty one that ends the text. *)
Theorem cuesheet_lines_indentation :
  forall (parts : list string) (ls : list string),
    cuesheet_lines parts = Ok ls ->
    Forall (fun l => indented_by emitted_level l = true) ls
    /\ make_cuesheet parts = Ok (Py.join Py.nl ls).
Proof.
  intros parts ls H. split.
  - unfold cuesheet_lines in H. cbv zeta in H.
    destruct (Py.item1 (List.map (List.map Py.split) (split_by_track parts)))
      as [tracks_1 | e]; cbn [bind] in H; [| discriminate H].
    destruct (track_type tracks_1) as [ty | e]; cbn [bind] in H; [| discriminate H].
    match type of H with
    | bind (Py.for_each ?body ?l ?s0) _ = _ =>
        destruct (Py.for_each body l s0) as [st |] eqn:Hrun;
        cbn [bind] in H; [| discriminate H]
    end.
    injection H as <-.
    apply Forall_app. split.
    + refine (for_each_invariant
                (fun st => Forall (fun l => indented_by emitted_level l = true)
                             (cuesheet st))
                _ (fun s a s' => emit_group_indented _ s s' a) _ _ _ _ Hrun).
      constructor.
    + constructor; [reflexivity | constructor].
  - unfold make_cuesheet. rewrite H. reflexivity.
Qed.

Lemma cuesheet_lines_indentation_witness :
  Forall (fun l => indented_by emitted_level l = true)
    ["FILE " ++ dquote ++ "data.wav" ++ dquote ++ " BINARY";
     "  TRACK 01 AUDIO";
     "    INDEX 01 00:00:00";
     ""]
  /\ make_cuesheet parts_one_track
     = Ok (Py.join Py.nl
             ["FILE " ++ dquote ++ "data.wav" ++ dquote ++ " BINARY";
              "  TRACK 01 AUDIO";
              "    INDEX 01 00:00:00";
              ""]).
Proof.
  apply (cuesheet_lines_indentation parts_one_track).
  vm_compute. reflexivity.
Defined.

(** *** Cue emitter: audio tracks *)

(** C7. An audio group starts at the start declared by its FILE record
    (00:00:00 for a bare 0) plus the silence offset so far; with a START
    record it emits INDEX 00 at that position and INDEX 01 at that
    position plus START, without one a single INDEX 01 at that
    position. *)
Theorem emit_group_audio_index :
  forall (b : bool) (st : emitter_state) (track : nat) (data : list (list string))
         (isrc : option string) (file_start len track_start : string)
         (start silence : option string) (silence_offset' : string),
    track <> 0%nat ->
    track_type data = Ok "AUDIO" ->
    get_isrc data = Ok isrc ->
    get_track_file data = Ok (Some [file_start; len]) ->
    offset_sum (declared_start file_start) (silence_offset st) = Ok track_start ->
    get_start data = Ok start ->
    get_silence data = Ok silence ->
    next_silence_offset (silence_offset st) silence = Ok silence_offset' ->
    match start with
    | None =>
        emit_group b st (track, data)
        = Ok {| cuesheet :=
                  (cuesheet st ++ audio_head track data isrc
                     ++ [("    INDEX 01 " ++ track_start)%string])%list;
                silence_offset := silence_offset' |}
    | Some pregap =>
        pregap <> "" ->
        forall index_01 : string,
          offset_sum track_start pregap = Ok index_01 ->
          emit_group b st (track, data)
          = Ok {| cuesheet :=
                    (cuesheet st ++ audio_head track data isrc
                       ++ [("    INDEX 00 " ++ track_start)%string;
                           ("    INDEX 01 " ++ index_01)%string])%list;
                  silence_offset := silence_offset' |}
    end.
Proof.
  intros b st track data isrc file_start len track_start start silence so'
    Htrack Hty Hisrc Hfile Hstart_sum Hstart Hsilence Hnext.
  assert (Hgo : forall (index_lines : list string) (st1 : emitter_state),
             silence_offset st1 = silence_offset st ->
             cuesheet st1
             = (cuesheet st ++ audio_head track data isrc ++ index_lines)%list ->
             match silence with
             | Some silence =>
                 silence_offset' <- offset_sum (silence_offset st1) silence ;;
                 Ok {| cuesheet := cuesheet st1; silence_offset := silence_offset' |}
             | None => Ok st1
             end
             = Ok {| cuesheet :=
                       (cuesheet st ++ audio_head track data isrc ++ index_lines)%list;
                     silence_offset := so' |}).
  { intros index_lines st1 Hso Hcue. unfold next_silence_offset in Hnext.
    destruct silence as [sil |].
    - rewrite Hso, Hnext. cbn [bind]. rewrite Hcue. reflexivity.
    - injection Hnext as <-. destruct st1 as [c so]. cbn in Hso, Hcue.
      subst. reflexivity. }
  assert (Hprefix : forall st0 : emitter_state,
             silence_offset
               (match isrc with
                | Some isrc => append_line st0 (line 2 ["ISRC"; isrc])
                | None => st0
                end) = silence_offset st0).
  { intros st0. destruct isrc; reflexivity. }
  unfold declared_start in Hstart_sum.
  destruct start as [pregap |].
  - intros Hpregap index_01 Hindex.
    unfold emit_group.
    destruct (Nat.eqb_spec track 0) as [-> | _]; [congruence |].
    rewrite Hty. cbn [bind String.eqb Ascii.eqb Bool.eqb].
    rewrite Hisrc. cbn [bind]. rewrite Hfile. cbn [bind].
    rewrite Hprefix.
    destruct (has_copy data) eqn:Hcopy; cbn [append_line silence_offset];
      rewrite Hstart_sum; cbn [bind]; rewrite Hstart; cbn [bind];
      (destruct pregap as [| c pregap]; [congruence |]);
      rewrite Hindex; cbn [bind]; rewrite Hsilence; cbn [bind];
      apply Hgo;
      try (destruct isrc; reflexivity);
      unfold audio_head; rewrite Hcopy;
      destruct isrc; cbn; rewrite <- ?app_assoc; reflexivity.
  - unfold emit_group.
    destruct (Nat.eqb_spec track 0) as [-> | _]; [congruence |].
    rewrite Hty. cbn [bind String.eqb Ascii.eqb Bool.eqb].
    rewrite Hisrc. cbn [bind]. rewrite Hfile. cbn [bind].
    rewrite Hprefix.
    destruct (has_copy data) eqn:Hcopy; cbn [append_line silence_offset];
      rewrite Hstart_sum; cbn [bind]; rewrite Hstart; cbn [bind];
      rewrite Hsilence; cbn [bind];
      apply Hgo;
      try (destruct isrc; reflexivity);
      unfold audio_head; rewrite Hcopy;
      destruct isrc; cbn; rewrite <- ?app_assoc; reflexivity.
Qed.

Lemma emit_group_audio_index_witness :
  emit_group true {| cuesheet := []; silence_offset := "00:00:30" |}
    (2%nat, data_track_2)
  = Ok {| cuesheet := ["  TRACK 02 AUDIO"; "    INDEX 00 03:00:30";
                       "    INDEX 01 03:02:30"];
          silence_offset := "00:00:30" |}.
Proof.
  refine (emit_group_audio_index true
            {| cuesheet := []; silence_offset := "00:00:30" |}
            2 data_track_2 None "03:00:00" "04:00:00" "03:00:30"
            (Some "00:02:00") None "00:00:30"
            _ _ _ _ _ _ _ _ _ "03:02:30" _);
    try reflexivity; discriminate.
Defined.

Example emit_group_audio_bare_zero :
  emit_group true {| cuesheet := []; silence_offset := "00:00:00" |}
    (1%nat, [["TRACK"; "AUDIO"]; ["FILE"; "x"; "0"; "300"]])
  = Ok {| cuesheet := ["  TRACK 01 AUDIO"; "    INDEX 01 00:00:00"];
          silence_offset := "00:00:00" |}.
Proof. reflexivity. Qed.

(** *** Cue emitter: silence *)

Lemma matching_ok_nonempty (data : list (list string)) (key : string) :
  forall ms, matching data key = Ok ms -> Forall (fun x => x <> []) data.
Proof.
  induction data as [| x data IH]; intros ms H; [constructor |].
  cbn [matching] in H.
  destruct x as [| w x]; cbn [Py.item0 bind] in H; [discriminate H |].
  destruct (matching data key) as [ms' |] eqn:E; cbn [bind] in H; [| discriminate H].
  constructor; [discriminate | exact (IH ms' eq_refl)].
Qed.

Lemma only_matching_word_ok_nonempty {A : Type} (data : list (list string))
    (key : string) (process : list string -> result A) (missing_ok : bool)
    (r : option A) :
  only_matching_word data key process missing_ok = Ok r ->
  Forall (fun x => x <> []) data.
Proof.
  unfold only_matching_word. intros H.
  destruct (matching data key) as [ms |] eqn:E; cbn [bind] in H; [| discriminate H].
  exact (matching_ok_nonempty data key ms E).
Qed.

Lemma without_silence_nonempty (data : list (list string)) :
  Forall (fun x => x <> []) data -> Forall (fun x => x <> []) (without_silence data).
Proof.
  intros H. unfold without_silence. rewrite Forall_forall in *.
  intros x Hx. apply filter_In in Hx. apply H. tauto.
Qed.

Lemma filter_without_silence (key : string) (data : list (list string)) :
  List.filter (first_token_is key) (without_silence data)
  = if String.eqb key "SILENCE" then []
    else List.filter (first_token_is key) data.
Proof.
  unfold without_silence.
  induction data as [| x data IH]; [destruct (String.eqb key "SILENCE"); reflexivity |].
  cbn [List.filter].
  destruct x as [| w x]; cbn [first_token_is negb List.filter]; [exact IH |].
  destruct (String.eqb_spec w "SILENCE") as [-> | Hw]; cbn [negb List.filter first_token_is].
  - rewrite IH. rewrite (String.eqb_sym "SILENCE" key).
    destruct (String.eqb key "SILENCE"); reflexivity.
  - rewrite IH. destruct (String.eqb_spec key "SILENCE") as [-> | Hk].
    + destruct (String.eqb_spec w "SILENCE"); [congruence | reflexivity].
    + reflexivity.
Qed.

Lemma only_matching_word_without_silence {A : Type} (data : list (list string))
    (key : string) (process : list string -> result A) (missing_ok : bool) :
  Forall (fun x => x <> []) data ->
  String.eqb key "SILENCE" = false ->
  only_matching_word (without_silence data) key process missing_ok
  = only_matching_word data key process missing_ok.
Proof.
  intros Hdata Hkey.
  rewrite (only_matching_word_by_filter (without_silence data))
    by (apply without_silence_nonempty; exact Hdata).
  rewrite (only_matching_word_by_filter data) by exact Hdata.
  rewrite filter_without_silence, Hkey. reflexivity.
Qed.

Lemma get_silence_without_silence (data : list (list string)) :
  Forall (fun x => x <> []) data ->
  get_silence (without_silence data) = Ok None.
Proof.
  intros Hdata. unfold get_silence.
  rewrite (only_matching_word_by_filter (without_silence data))
    by (apply without_silence_nonempty; exact Hdata).
  rewrite filter_without_silence. reflexivity.
Qed.

Lemma has_copy_without_silence (data : list (list string)) :
  has_copy (without_silence data) = has_copy data.
Proof.
  unfold has_copy, without_silence.
  induction data as [| x data IH]; [reflexivity |].
  cbn [List.filter List.existsb].
  destruct x as [| w x]; cbn [first_token_is negb List.existsb]; [rewrite IH; reflexivity |].
  destruct (String.eqb_spec w "SILENCE") as [-> | Hw];
    cbn [negb List.existsb]; rewrite IH; reflexivity.
Qed.

Lemma track_type_without_silence (data : list (list string)) (ty : string) :
  track_type data = Ok ty ->
  track_type (without_silence data) = Ok ty.
Proof.
  unfold track_type, without_silence. intros H.
  destruct data as [| words data]; [discriminate H |].
  destruct words as [| w words]; [discriminate H |].
  cbn [Py.item0 bind] in H.
  destruct (String.eqb_spec w "TRACK") as [-> | Hw]; [| discriminate H].
  cbn [List.filter first_token_is String.eqb Ascii.eqb Bool.eqb negb Py.item0 bind assert].
  exact H.
Qed.

(** C10. At any position of the disc, an audio group that carries a
    SILENCE record emits exactly the lines it would emit without that
    record, computed from the silence offset it received; the duration
    is added to the silence offset only afterwards, for the groups that
    follow. *)
Theorem emit_group_silence_after_index :
  forall (b : bool) (st : emitter_state) (track : nat) (data : list (list string))
         (silence : string),
    track <> 0%nat ->
    track_type data = Ok "AUDIO" ->
    get_silence data = Ok (Some silence) ->
    emit_group b st (track, data)
    = (st0 <- emit_group b st (track, without_silence data) ;;
       silence_offset' <- offset_sum (silence_offset st) silence ;;
       Ok {| cuesheet := cuesheet st0; silence_offset := silence_offset' |})
    /\ (forall st0 : emitter_state,
          emit_group b st (track, without_silence data) = Ok st0 ->
          silence_offset st0 = silence_offset st).
Proof.
  intros b st track data silence Htrack Hty Hsilence.
  pose proof (only_matching_word_ok_nonempty _ _ _ _ _ Hsilence) as Hdata.
  assert (Hemit : forall k : emitter_state -> result emitter_state,
             (st0 <- emit_group b st (track, without_silence data) ;; k st0)
             = (isrc <- get_isrc data ;;
                track_file <- get_track_file data ;;
                match track_file with
                | Some [file_start; _] =>
                    track_start <- offset_sum (declared_start file_start)
                                     (silence_offset st) ;;
                    start <- get_start data ;;
                    index_lines <-
                      match start with
                      | Some (String _ _ as start) =>
                          index_01 <- offset_sum track_start start ;;
                          Ok [line 2 ["INDEX"; "00"; track_start];
                              line 2 ["INDEX"; "01"; index_01]]
                      | _ => Ok [line 2 ["INDEX"; "01"; track_start]]
                      end ;;
                    k {| cuesheet :=
                           (cuesheet st ++ audio_head track data isrc
                              ++ index_lines)%list;
                         silence_offset := silence_offset st |}
                | Some _ => Err ValueError
                | None => Err TypeError
                end)).
  { intros k. unfold emit_group.
    destruct (Nat.eqb_spec track 0) as [-> | _]; [congruence |].
    rewrite (track_type_without_silence data "AUDIO" Hty).
    cbn [bind String.eqb Ascii.eqb Bool.eqb].
    rewrite has_copy_without_silence.
    unfold get_isrc, get_track_file, get_start.
    rewrite !only_matching_word_without_silence by (exact Hdata || reflexivity).
    rewrite (get_silence_without_silence data Hdata).
    fold (get_isrc data) (get_track_file data) (get_start data).
    unfold audio_head, declared_start.
    destruct (get_isrc data) as [isrc | e]; cbn [bind]; [| reflexivity].
    destruct (get_track_file data) as [[[| file_start [| len [| ? ?]]] |] | e];
      cbn [bind]; try reflexivity.
    assert (Hso : silence_offset
                    (match isrc with
                     | Some isrc =>
                         append_line
                           (if has_copy data
                            then append_line
                                   (append_line st
                                      (line 1 ["TRACK"; Py.format_02d (Z.of_nat track);
                                               "AUDIO"]))
                                   (line 2 ["FLAGS"; "DCP"])
                            else append_line st
                                   (line 1 ["TRACK"; Py.format_02d (Z.of_nat track);
                                            "AUDIO"]))
                           (line 2 ["ISRC"; isrc])
                     | None =>
                         if has_copy data
                         then append_line
                                (append_line st
                                   (line 1 ["TRACK"; Py.format_02d (Z.of_nat track);
                                            "AUDIO"]))
                                (line 2 ["FLAGS"; "DCP"])
                         else append_line st
                                (line 1 ["TRACK"; Py.format_02d (Z.of_nat track);
                                         "AUDIO"])
                     end) = silence_offset st).
    { destruct isrc, (has_copy data); reflexivity. }
    rewrite Hso.
    destruct (offset_sum (if String.eqb file_start "0" then "00:00:00" else file_start)
                (silence_offset st)) as [track_start | e]; cbn [bind]; [| reflexivity].
    destruct (get_start data) as [[[| c pregap] |] | e]; cbn [bind]; try reflexivity;
      try (destruct (offset_sum track_start (String c pregap)) as [index_01 | e];
           cbn [bind]; [| reflexivity]);
      f_equal; unfold append_line; cbn [cuesheet silence_offset];
      destruct isrc, (has_copy data); cbn [cuesheet silence_offset app];
      rewrite <- ?app_assoc; reflexivity. }
  split.
  - rewrite Hemit. clear Hemit.
    unfold emit_group.
    destruct (Nat.eqb_spec track 0) as [-> | _]; [congruence |].
    rewrite Hty. cbn [bind String.eqb Ascii.eqb Bool.eqb].
    unfold audio_head, declared_start.
    destruct (get_isrc data) as [isrc | e]; cbn [bind]; [| reflexivity].
    destruct (get_track_file data) as [[[| file_start [| len [| ? ?]]] |] | e];
      cbn [bind]; try reflexivity.
    assert (Hso : forall st1 : emitter_state,
               silence_offset
                 (match isrc with
                  | Some isrc => append_line st1 (line 2 ["ISRC"; isrc])
                  | None => st1
                  end) = silence_offset st1).
    { intros st1. destruct isrc; reflexivity. }
    rewrite Hso.
    assert (Hso' : silence_offset
                     (if has_copy data
                      then append_line
                             (append_line st
                                (line 1 ["TRACK"; Py.format_02d (Z.of_nat track);
                                         "AUDIO"]))
                             (line 2 ["FLAGS"; "DCP"])
                      else append_line st
                             (line 1 ["TRACK"; Py.format_02d (Z.of_nat track);
                                      "AUDIO"])) = silence_offset st).
    { destruct (has_copy data); reflexivity. }
    rewrite Hso'.
    destruct (offset_sum (if String.eqb file_start "0" then "00:00:00" else file_start)
                (silence_offset st)) as [track_start | e]; cbn [bind]; [| reflexivity].
    destruct (get_start data) as [[[| c pregap] |] | e]; cbn [bind]; try reflexivity;
      try (destruct (offset_sum track_start (String c pregap)) as [index_01 | e];
           cbn [bind]; [| reflexivity]);
      rewrite Hsilence; cbn [bind];
      destruct isrc, (has_copy data); cbn [append_line cuesheet silence_offset];
      (destruct (offset_sum (silence_offset st) silence); cbn [bind]; [| reflexivity]);
      cbn [cuesheet silence_offset app]; rewrite <- ?app_assoc; reflexivity.
  - intros st0 Hst0.
    pose proof (Hemit (fun s => Ok s)) as H.
    rewrite Hst0 in H. cbn [bind] in H. symmetry in H.
    run_ok; reflexivity.
Qed.

Lemma emit_group_silence_after_index_witness :
  emit_group true {| cuesheet := []; silence_offset := "00:00:30" |}
    (3%nat, data_track_3)
  = Ok {| cuesheet := ["  TRACK 03 AUDIO"; "    FLAGS DCP"; "    INDEX 01 07:00:30"];
          silence_offset := "00:00:40" |}.
Proof.
  refine (eq_trans
            (proj1 (emit_group_silence_after_index true
                      {| cuesheet := []; silence_offset := "00:00:30" |}
                      3 data_track_3 "00:00:10" _ _ _)) _);
    try reflexivity; discriminate.
Defined.

Example silence_on_second_track_shifts_third :
  make_cuesheet
    ["CD_DA";
     "TRACK AUDIO"; "FILE x 0 01:00:00";
     "TRACK AUDIO"; "SILENCE 00:00:10"; "FILE x 01:00:00 01:00:00";
     "TRACK AUDIO"; "FILE x 02:00:00 01:00:00"]
  = Ok (Py.join Py.nl
          ["FILE " ++ dquote ++ "data.wav" ++ dquote ++ " BINARY";
           "  TRACK 01 AUDIO"; "    INDEX 01 00:00:00";
           "  TRACK 02 AUDIO"; "    INDEX 01 01:00:00";
           "  TRACK 03 AUDIO"; "    INDEX 01 02:00:10";
           ""]).
Proof. vm_compute. reflexivity. Qed.

(** ** Further properties of the module *)

(** *** Rendering and reading integers *)

Lemma digit_char_val (d : Z) :
  0 <= d < 10 -> Py.digit_val (Py.digit_char d) = Some d.
Proof.
  intros H.
  assert (Hd : d = 0 \/ d = 1 \/ d = 2 \/ d = 3 \/ d = 4 \/ d = 5 \/ d = 6
               \/ d = 7 \/ d = 8 \/ d = 9) by lia.
  repeat (destruct Hd as [-> | Hd]; [reflexivity |]). subst d. reflexivity.
Qed.

Lemma int_digits_digit (c : ascii) (d a : Z) (b : bool) (r : string) :
  Py.digit_val c = Some d ->
  Py.int_digits a b (String c r) = Py.int_digits (10 * a + d) true r.
Proof.
  intros H. cbn [Py.int_digits].
  assert (Hu : Ascii.eqb c "_" = false) by (digit_cases H; reflexivity).
  rewrite Hu, H. reflexivity.
Qed.

Lemma all_digits_app (s t : string) :
  all_digits (s ++ t) = all_digits s && all_digits t.
Proof.
  induction s as [| c s IH]; [reflexivity |].
  cbn [String.append all_digits]. destruct (Py.digit_val c); [exact IH | reflexivity].
Qed.

Lemma append_assoc (s t u : string) : (s ++ t) ++ u = s ++ (t ++ u).
Proof.
  induction s as [| c s IH]; [reflexivity |]. cbn [String.append]. rewrite IH. reflexivity.
Qed.

Lemma append_nil_r (s : string) : s ++ "" = s.
Proof.
  induction s as [| c s IH]; [reflexivity |]. cbn [String.append]. rewrite IH. reflexivity.
Qed.

(** The digits that [dec_digits] writes in front of [acc] read back as
    the number. *)
Lemma dec_digits_spec (fuel : nat) :
  forall (n : Z) (acc : string),
    (0 < fuel)%nat ->
    0 <= n < 10 ^ Z.of_nat fuel ->
    exists ds : string,
      Py.dec_digits fuel n acc = ds ++ acc
      /\ all_digits ds = true
      /\ ds <> ""
      /\ forall (a : Z) (b : bool) (rest : string),
           Py.int_digits a b (ds ++ rest)
           = Py.int_digits (a * 10 ^ Z.of_nat (String.length ds) + n) true rest.
Proof.
  induction fuel as [| k IH]; intros n acc Hfuel Hn.
  - lia.
  - cbn [Py.dec_digits].
    destruct (Z.ltb_spec n 10) as [Hlt | Hge].
    + exists (String (Py.digit_char n) "").
      assert (Hmod : n mod 10 = n) by (apply Z.mod_small; lia).
      rewrite Hmod.
      pose proof (digit_char_val n ltac:(lia)) as Hd.
      repeat split.
      * cbn [all_digits]. rewrite Hd. reflexivity.
      * discriminate.
      * intros a b rest. cbn [String.append].
        rewrite (int_digits_digit _ n a b rest Hd). cbn [String.length].
        f_equal. change (Z.of_nat 1) with 1. lia.
    + assert (Hq : 0 <= n / 10 < 10 ^ Z.of_nat k).
      { split; [apply Z.div_pos; lia |].
        apply Z.div_lt_upper_bound; [lia |].
        rewrite Nat2Z.inj_succ, Z.pow_succ_r in Hn by lia. lia. }
      assert (Hk : (0 < k)%nat).
      { destruct k; [| lia]. cbn in Hq.
        assert (n / 10 = 0) by lia.
        pose proof (Z.div_mod n 10 ltac:(lia)).
        pose proof (Z.mod_pos_bound n 10 ltac:(lia)). lia. }
      destruct (IH (n / 10) (String (Py.digit_char (n mod 10)) acc) Hk Hq)
        as [ds [Heq [Hall [Hne Hread]]]].
      pose proof (digit_char_val (n mod 10) (Z.mod_pos_bound n 10 ltac:(lia))) as Hd.
      exists (ds ++ String (Py.digit_char (n mod 10)) "").
      repeat split.
      * rewrite Heq, append_assoc. reflexivity.
      * rewrite all_digits_app, Hall. cbn [all_digits andb]. rewrite Hd. reflexivity.
      * destruct ds; [congruence | discriminate].
      * intros a b rest. rewrite append_assoc. cbn [String.append].
        rewrite Hread, (int_digits_digit _ _ _ _ _ Hd). f_equal.
        assert (Hlen : Z.of_nat (String.length (ds ++ String (Py.digit_char (n mod 10)) ""))
                       = Z.succ (Z.of_nat (String.length ds))).
        { clear. induction ds as [| c ds IHds]; [reflexivity |].
          cbn [String.append String.length]. rewrite !Nat2Z.inj_succ, IHds.
          reflexivity. }
        rewrite Hlen, Z.pow_succ_r by lia.
        pose proof (Z.div_mod n 10 ltac:(lia)). lia.
Qed.

Lemma str_nonneg_spec (n : Z) :
  0 <= n ->
  all_digits (Py.str_nonneg n) = true
  /\ Py.str_nonneg n <> ""
  /\ Py.int_digits 0 false (Py.str_nonneg n) = Some n.
Proof.
  intros Hn. unfold Py.str_nonneg.
  assert (Hfuel : 0 <= n < 10 ^ Z.of_nat (S (Z.to_nat (Z.log2 n)))).
  { split; [exact Hn |].
    rewrite Nat2Z.inj_succ, Z2Nat.id by apply Z.log2_nonneg.
    destruct (Z.eq_dec n 0) as [-> | Hnz]; [reflexivity |].
    pose proof (Z.log2_spec n ltac:(lia)) as [_ Hup].
    eapply Z.lt_le_trans; [exact Hup |].
    apply Z.pow_le_mono_l. pose proof (Z.log2_nonneg n). lia. }
  destruct (dec_digits_spec _ n "" (Nat.lt_0_succ _) Hfuel)
    as [ds [Heq [Hall [Hne Hread]]]].
  rewrite Heq, append_nil_r.
  repeat split; [exact Hall | exact Hne |].
  specialize (Hread 0 false ""). rewrite append_nil_r in Hread.
  rewrite Hread. reflexivity.
Qed.

Lemma digit_not_space (c : ascii) (d : Z) :
  Py.digit_val c = Some d -> Py.isspace c = false.
Proof. intros H. digit_cases H; reflexivity. Qed.

Lemma rstrip_by_cons (p : ascii -> bool) (c : ascii) (r : string) :
  Py.rstrip_by p r = r -> r <> "" -> Py.rstrip_by p (String c r) = String c r.
Proof.
  intros Hr Hne. cbn [Py.rstrip_by]. rewrite Hr.
  destruct r; [congruence | reflexivity].
Qed.

Lemma rstrip_all_digits (s : string) :
  all_digits s = true -> Py.rstrip s = s.
Proof.
  unfold Py.rstrip. induction s as [| c s IH]; [reflexivity |].
  cbn [all_digits]. destruct (Py.digit_val c) as [d |] eqn:Hc; [| discriminate].
  intros Hs. destruct s as [| c' s].
  - cbn [Py.rstrip_by]. rewrite (digit_not_space c d Hc). reflexivity.
  - apply rstrip_by_cons; [exact (IH Hs) | discriminate].
Qed.

Lemma int_all_digits (s : string) :
  all_digits s = true -> s <> "" -> Py.int s = Py.int_digits 0 false s.
Proof.
  intros Hs Hne. unfold Py.int, Py.strip. rewrite (rstrip_all_digits s Hs).
  destruct s as [| c r]; [congruence |].
  cbn [all_digits] in Hs.
  destruct (Py.digit_val c) as [d |] eqn:Hc; [| discriminate].
  cbn [Py.lstrip]. rewrite (digit_not_space c d Hc).
  digit_cases Hc; reflexivity.
Qed.

Lemma int_minus_digits (s : string) :
  all_digits s = true -> s <> "" ->
  Py.int (String "-" s) = option_map Z.opp (Py.int_digits 0 false s).
Proof.
  intros Hs Hne. unfold Py.int, Py.strip.
  assert (Hr : Py.rstrip (String "-" s) = String "-" s).
  { apply rstrip_by_cons; [exact (rstrip_all_digits s Hs) | exact Hne]. }
  rewrite Hr. reflexivity.
Qed.

(** Reading back what ['%02d'] renders gives the number, for every
    integer. *)
Lemma int_format_02d (n : Z) : Py.int (Py.format_02d n) = Some n.
Proof.
  unfold Py.format_02d. destruct (Z.ltb_spec n 0) as [Hneg | Hpos].
  - destruct (str_nonneg_spec (- n) ltac:(lia)) as [Hall [Hne Hread]].
    rewrite (int_minus_digits _ Hall Hne), Hread. cbn [option_map].
    rewrite Z.opp_involutive. reflexivity.
  - destruct (str_nonneg_spec n Hpos) as [Hall [Hne Hread]].
    destruct (String.length (Py.str_nonneg n) <? 2)%nat.
    + rewrite int_all_digits; [| cbn [all_digits]; exact Hall | discriminate].
      rewrite (int_digits_digit "0" 0 0 false _ eq_refl).
      destruct (Py.str_nonneg n) as [| c r] eqn:Hs; [congruence |].
      cbn [all_digits] in Hall.
      destruct (Py.digit_val c) as [d |] eqn:Hc; [| discriminate].
      rewrite (int_digits_digit c d _ true r Hc).
      rewrite (int_digits_digit c d _ false r Hc) in Hread. exact Hread.
    + rewrite (int_all_digits _ Hall Hne). exact Hread.
Qed.

Lemma count_nonneg (c : ascii) (s : string) : 0 <= Py.count c s.
Proof.
  induction s as [| a s IH]; cbn [Py.count]; [lia |].
  destruct (Ascii.eqb a c); lia.
Qed.

Lemma count_app (c : ascii) (s t : string) :
  Py.count c (s ++ t) = Py.count c s + Py.count c t.
Proof.
  induction s as [| a s IH]; cbn [String.append Py.count]; [reflexivity |].
  rewrite IH. lia.
Qed.

Lemma count_all_digits_colon (s : string) :
  all_digits s = true -> Py.count ":" s = 0.
Proof.
  induction s as [| c s IH]; [reflexivity |].
  cbn [all_digits Py.count].
  destruct (Py.digit_val c) as [d |] eqn:Hc; [| discriminate].
  intros Hs. rewrite (digit_not_colon c d Hc), (IH Hs). reflexivity.
Qed.

Lemma count_format_02d_colon (n : Z) : Py.count ":" (Py.format_02d n) = 0.
Proof.
  unfold Py.format_02d. destruct (Z.ltb_spec n 0) as [Hneg | Hpos].
  - destruct (str_nonneg_spec (- n) ltac:(lia)) as [Hall _].
    cbn [Py.count]. rewrite (count_all_digits_colon _ Hall). reflexivity.
  - destruct (str_nonneg_spec n Hpos) as [Hall _].
    destruct (String.length (Py.str_nonneg n) <? 2)%nat;
      cbn [Py.count]; rewrite (count_all_digits_colon _ Hall); reflexivity.
Qed.

Lemma split_on_from_no_sep (c : ascii) (a : string) :
  Py.count c a = 0 ->
  forall cur : string,
    Py.split_on_from c cur a = [cur ++ a]
    /\ forall r : string,
         Py.split_on_from c cur (a ++ String c r)
         = (cur ++ a) :: Py.split_on_from c "" r.
Proof.
  induction a as [| x a IH]; intros Hc cur.
  - cbn [String.append Py.split_on_from]. rewrite append_nil_r, Ascii.eqb_refl.
    split; reflexivity.
  - cbn [Py.count] in Hc. pose proof (count_nonneg c a) as Hnn.
    destruct (Ascii.eqb x c) eqn:Hx; [lia |].
    destruct (IH ltac:(lia) (cur ++ String x "")) as [H1 H2].
    cbn [String.append Py.split_on_from]. rewrite Hx.
    rewrite H1. split; [| intros r; rewrite H2];
      rewrite append_assoc; reflexivity.
Qed.

Lemma split_on_three (a b c : string) :
  Py.count ":" a = 0 -> Py.count ":" b = 0 -> Py.count ":" c = 0 ->
  Py.split_on ":" (a ++ ":" ++ b ++ ":" ++ c) = [a; b; c].
Proof.
  intros Ha Hb Hc. unfold Py.split_on.
  change (a ++ ":" ++ b ++ ":" ++ c) with (a ++ String ":" (b ++ String ":" c)).
  rewrite (proj2 (split_on_from_no_sep ":" a Ha "")).
  rewrite (proj2 (split_on_from_no_sep ":" b Hb "")).
  rewrite (proj1 (split_on_from_no_sep ":" c Hc "")). reflexivity.
Qed.

Lemma split_on_length (c : ascii) (s : string) :
  forall cur : string,
    Z.of_nat (List.length (Py.split_on_from c cur s)) = Py.count c s + 1.
Proof.
  induction s as [| a s IH]; intros cur; cbn [Py.split_on_from Py.count].
  - reflexivity.
  - destruct (Ascii.eqb a c); cbn [List.length]; rewrite ?Nat2Z.inj_succ, IH; lia.
Qed.

(** *** Timecodes: parsing what was rendered *)

Lemma to_fracs_of_format_fracs :
  forall n : Z, to_fracs (format_fracs n) = Ok n.
Proof.
  intros n. unfold format_fracs, Py.divmod, to_fracs.
  rewrite split_on_three by apply count_format_02d_colon.
  rewrite !int_format_02d. f_equal.
  pose proof (Z.div_mod n 75 ltac:(lia)).
  pose proof (Z.div_mod (n / 75) 60 ltac:(lia)). lia.
Qed.

(** Parsing the rendering of a frame count gives the frame count back,
    for every integer, negative ones included. *)
Theorem to_fracs_format_fracs :
  forall n : Z, to_fracs (format_fracs n) = Ok n.
Proof. exact to_fracs_of_format_fracs. Qed.

(** The sum of two timecodes that parse is a timecode that parses, to
    the sum of their frame counts. *)
Theorem offset_sum_frames :
  forall (x y : string) (a b : Z),
    to_fracs x = Ok a ->
    to_fracs y = Ok b ->
    exists z : string, offset_sum x y = Ok z /\ to_fracs z = Ok (a + b).
Proof.
  intros x y a b Hx Hy. exists (format_fracs (a + b)). split.
  - unfold offset_sum. rewrite Hx, Hy. reflexivity.
  - apply to_fracs_of_format_fracs.
Qed.

Lemma offset_sum_frames_witness :
  exists z : string,
    offset_sum "00:59:74" "1:0:1" = Ok z /\ to_fracs z = Ok (4499 + 4501).
Proof.
  apply (offset_sum_frames "00:59:74" "1:0:1" 4499 4501); reflexivity.
Defined.

(** On timecodes that parse, [offset_sum] is commutative and
    associative. *)
Theorem offset_sum_comm_assoc :
  forall (x y z : string) (a b c : Z),
    to_fracs x = Ok a ->
    to_fracs y = Ok b ->
    to_fracs z = Ok c ->
    offset_sum x y = offset_sum y x
    /\ (xy <- offset_sum x y ;; offset_sum xy z)
       = (yz <- offset_sum y z ;; offset_sum x yz).
Proof.
  intros x y z a b c Hx Hy Hz. unfold offset_sum.
  rewrite Hx, Hy, Hz. cbn [bind]. rewrite !to_fracs_of_format_fracs. cbn [bind].
  split; do 2 f_equal; lia.
Qed.

Lemma offset_sum_comm_assoc_witness :
  offset_sum "00:00:74" "00:59:01" = offset_sum "00:59:01" "00:00:74"
  /\ (xy <- offset_sum "00:00:74" "00:59:01" ;; offset_sum xy "7:8:9")
     = (yz <- offset_sum "00:59:01" "7:8:9" ;; offset_sum "00:00:74" yz).
Proof.
  apply (offset_sum_comm_assoc "00:00:74" "00:59:01" "7:8:9" 74 4426 32109);
    reflexivity.
Defined.

(** Every result of [offset_sum] is normalised: adding 00:00:00 to it
    leaves it unchanged. *)
Theorem offset_sum_result_normalised :
  forall x y z : string,
    offset_sum x y = Ok z ->
    offset_sum z "00:00:00" = Ok z.
Proof.
  intros x y z H. unfold offset_sum in H.
  destruct (to_fracs x) as [a |]; cbn [bind] in H; [| discriminate H].
  destruct (to_fracs y) as [b |]; cbn [bind] in H; [| discriminate H].
  injection H as <-.
  unfold offset_sum. rewrite to_fracs_of_format_fracs.
  change (to_fracs "00:00:00") with (Ok (A := Z) 0). cbn [bind].
  rewrite Z.add_0_r. reflexivity.
Qed.

Lemma offset_sum_result_normalised_witness :
  offset_sum "01:00:00" "00:00:00" = Ok "01:00:00".
Proof.
  apply (offset_sum_result_normalised "00:60:00" "00:00:00" "01:00:00").
  reflexivity.
Defined.

(** A text that does not have exactly two colons is not a timecode:
    [to_fracs] fails on it, and so does [offset_sum] with it as first
    operand. *)
Theorem to_fracs_needs_three_fields :
  forall t : string,
    Py.count ":" t <> 2 ->
    to_fracs t = Err (MalformedTimecode t)
    /\ forall y : string, offset_sum t y = Err (MalformedTimecode t).
Proof.
  intros t Hc.
  assert (H : to_fracs t = Err (MalformedTimecode t)).
  { unfold to_fracs, Py.split_on.
    pose proof (split_on_length ":" t "") as Hlen.
    destruct (Py.split_on_from ":" "" t) as [| f1 [| f2 [| f3 [| f4 l]]]];
      try reflexivity.
    cbn [List.length] in Hlen. lia. }
  split; [exact H |]. intros y. unfold offset_sum. rewrite H. reflexivity.
Qed.

Lemma to_fracs_needs_three_fields_witness :
  to_fracs "03:00" = Err (MalformedTimecode "03:00")
  /\ forall y : string, offset_sum "03:00" y = Err (MalformedTimecode "03:00").
Proof.
  apply (to_fracs_needs_three_fields "03:00"). vm_compute. discriminate.
Defined.

Lemma format_02d_two_chars (v : Z) :
  0 <= v < 100 ->
  exists (c1 c2 : ascii) (d1 d2 : Z),
    Py.format_02d v = String c1 (String c2 "")
    /\ Py.digit_val c1 = Some d1 /\ Py.digit_val c2 = Some d2
    /\ 10 * d1 + d2 = v.
Proof.
  intros Hv.
  assert (Hk : forall k : nat,
             (k < 100)%nat ->
             match Py.format_02d (Z.of_nat k) with
             | String c1 (String c2 EmptyString) =>
                 match Py.digit_val c1, Py.digit_val c2 with
                 | Some d1, Some d2 => 10 * d1 + d2 =? Z.of_nat k
                 | _, _ => false
                 end
             | _ => false
             end = true).
  { intros k Hk. do 100 (destruct k as [| k]; [vm_compute; reflexivity |]). lia. }
  specialize (Hk (Z.to_nat v) ltac:(lia)). rewrite Z2Nat.id in Hk by lia.
  destruct (Py.format_02d v) as [| c1 [| c2 [| ? ?]]]; try discriminate Hk.
  destruct (Py.digit_val c1) as [d1 |] eqn:H1; [| discriminate Hk].
  destruct (Py.digit_val c2) as [d2 |] eqn:H2; [| discriminate Hk].
  exists c1, c2, d1, d2.
  split; [reflexivity |]. split; [exact H1 |]. split; [exact H2 |].
  apply Z.eqb_eq. exact Hk.
Qed.

(** Every position below one hundred minutes renders in the form
    MM:SS:FF with two digits per field, seconds below 60 and frames
    below 75. *)
Theorem format_fracs_two_digit_form :
  forall n : Z,
    0 <= n < 100 * 60 * 75 ->
    mmssff (format_fracs n) = Some (n / 75 / 60, (n / 75) mod 60, n mod 75)
    /\ 0 <= (n / 75) mod 60 < 60
    /\ 0 <= n mod 75 < 75.
Proof.
  intros n Hn.
  pose proof (Z.mod_pos_bound n 75 ltac:(lia)) as Hf.
  pose proof (Z.mod_pos_bound (n / 75) 60 ltac:(lia)) as Hs.
  assert (Hm : 0 <= n / 75 / 60 < 100).
  { split.
    - apply Z.div_pos; [apply Z.div_pos; lia | lia].
    - apply Z.div_lt_upper_bound; [lia |].
      apply Z.div_lt_upper_bound; lia. }
  split; [| split; assumption].
  unfold format_fracs, Py.divmod.
  destruct (format_02d_two_chars _ Hm) as [m1 [m2 [a [b [Em [Hm1 [Hm2 Hmv]]]]]]].
  destruct (format_02d_two_chars ((n / 75) mod 60) ltac:(lia))
    as [s1 [s2 [c [d [Es [Hs1 [Hs2 Hsv]]]]]]].
  destruct (format_02d_two_chars (n mod 75) ltac:(lia))
    as [f1 [f2 [e [g [Ef [Hf1 [Hf2 Hfv]]]]]]].
  rewrite Em, Es, Ef. cbn [String.append mmssff].
  rewrite Hm1, Hm2, Hs1, Hs2, Hf1, Hf2. cbn [Ascii.eqb Bool.eqb andb].
  rewrite Hmv, Hsv, Hfv. reflexivity.
Qed.

Lemma format_fracs_two_digit_form_witness :
  mmssff (format_fracs 449999)
  = Some (449999 / 75 / 60, (449999 / 75) mod 60, 449999 mod 75)
  /\ 0 <= (449999 / 75) mod 60 < 60
  /\ 0 <= 449999 mod 75 < 75.
Proof.
  apply (format_fracs_two_digit_form 449999). lia.
Defined.

(** *** Track splitter: the groups partition the records *)

Lemma before_from_first_track (r : list string) :
  (before_first_track r ++ from_first_track r)%list = r.
Proof.
  induction r as [| q r IH]; [reflexivity |].
  cbn. destruct (is_track q); [reflexivity |]. cbn. rewrite IH. reflexivity.
Qed.

Lemma from_first_track_length (r : list string) :
  (List.length (from_first_track r) <= List.length r)%nat.
Proof.
  induction r as [| q r IH]; cbn; [lia |].
  destruct (is_track q); cbn [List.length]; lia.
Qed.

Lemma before_first_track_no_track (r : list string) :
  Forall (fun p => is_track p = false) (before_first_track r).
Proof.
  induction r as [| q r IH]; cbn; [constructor |].
  destruct (is_track q) eqn:Hq; constructor; assumption.
Qed.

Lemma from_first_track_head (r : list string) :
  match from_first_track r with
  | [] => True
  | q :: _ => is_track q = true
  end.
Proof.
  induction r as [| q r IH]; cbn; [exact I |].
  destruct (is_track q) eqn:Hq; [exact Hq | exact IH].
Qed.

(** Induction along the groups of [split_by_track]. *)
Lemma split_by_track_ind (P : list string -> list (list string) -> Prop) :
  P [] [] ->
  (forall p r,
      P (from_first_track r) (split_by_track (from_first_track r)) ->
      P (p :: r) ((p :: before_first_track r) :: split_by_track (from_first_track r))) ->
  forall parts, P parts (split_by_track parts).
Proof.
  intros Hnil Hcons parts.
  remember (List.length parts) as n eqn:Hn. revert parts Hn.
  induction n as [n IH] using lt_wf_ind. intros parts Hn.
  destruct parts as [| p r]; [exact Hnil |].
  rewrite split_by_track_cons. apply Hcons.
  apply (IH (List.length (from_first_track r))); [| reflexivity].
  subst n. cbn [List.length]. pose proof (from_first_track_length r). lia.
Qed.

Lemma concat_split_by_track :
  forall parts : list string, List.concat (split_by_track parts) = parts.
Proof.
  apply (split_by_track_ind (fun parts groups => List.concat groups = parts)).
  - reflexivity.
  - intros p r IH. cbn [List.concat]. rewrite IH. cbn [app].
    rewrite before_from_first_track. reflexivity.
Qed.

(** The groups, concatenated in order, are the records: the splitter
    drops, duplicates and reorders nothing. *)
Theorem split_by_track_concat :
  forall parts : list string, List.concat (split_by_track parts) = parts.
Proof. exact concat_split_by_track. Qed.

Lemma split_by_track_heads_are_tracks :
  forall parts : list string,
    Forall (fun g => Forall (fun p => is_track p = false) (List.tl g))
      (split_by_track parts)
    /\ Forall (fun g => exists p rest, g = p :: rest /\ is_track p = true)
         (List.tl (split_by_track parts)).
Proof.
  intros parts. split.
  - revert parts.
    apply (split_by_track_ind
             (fun _ groups =>
                Forall (fun g => Forall (fun p => is_track p = false) (List.tl g))
                  groups)).
    + constructor.
    + intros p r IH. constructor; [apply before_first_track_no_track | exact IH].
  - assert (Hgen : forall parts,
               match parts with [] => True | p :: _ => is_track p = true end ->
               Forall (fun g => exists p rest, g = p :: rest /\ is_track p = true)
                 (split_by_track parts)).
    { apply (split_by_track_ind
               (fun parts groups =>
                  match parts with [] => True | p :: _ => is_track p = true end ->
                  Forall (fun g => exists p rest, g = p :: rest /\ is_track p = true)
                    groups)).
      - constructor.
      - intros q s IH Hq. constructor; [eauto |].
        apply IH. apply from_first_track_head. }
    destruct parts as [| p r]; [constructor |].
    rewrite split_by_track_cons. cbn [List.tl].
    apply Hgen. apply from_first_track_head.
Qed.

(** Every group after the first begins with a TRACK record, and no group
    has a TRACK record after its first record. *)
Theorem split_by_track_track_heads :
  forall parts : list string,
    Forall (fun g => Forall (fun p => is_track p = false) (List.tl g))
      (split_by_track parts)
    /\ Forall (fun g => exists p rest, g = p :: rest /\ is_track p = true)
         (List.tl (split_by_track parts)).
Proof. exact split_by_track_heads_are_tracks. Qed.

Lemma filter_from_first_track (r : list string) :
  List.filter is_track (from_first_track r) = List.filter is_track r.
Proof.
  induction r as [| q r IH]; [reflexivity |].
  cbn [from_first_track]. destruct (is_track q) eqn:Hq; [reflexivity |].
  cbn [List.filter]. rewrite Hq. exact IH.
Qed.

Lemma length_split_by_track :
  forall parts : list string,
    List.length (split_by_track parts)
    = match parts with
      | [] => 0%nat
      | _ :: r => S (List.length (List.filter is_track r))
      end.
Proof.
  assert (Hgen : forall parts,
             match parts with [] => True | p :: _ => is_track p = true end ->
             List.length (split_by_track parts)
             = List.length (List.filter is_track parts)).
  { apply (split_by_track_ind
             (fun parts groups =>
                match parts with [] => True | p :: _ => is_track p = true end ->
                List.length groups = List.length (List.filter is_track parts))).
    - reflexivity.
    - intros p r IH Hp. cbn [List.length List.filter]. rewrite Hp.
      cbn [List.length]. rewrite (IH (from_first_track_head r)).
      rewrite filter_from_first_track. reflexivity. }
  intros [| p r]; [reflexivity |].
  rewrite split_by_track_cons. cbn [List.length].
  rewrite (Hgen _ (from_first_track_head r)), filter_from_first_track. reflexivity.
Qed.

(** A non-empty list of records splits into one group more than it has
    TRACK records after its first record. *)
Theorem split_by_track_length :
  forall parts : list string,
    List.length (split_by_track parts)
    = match parts with
      | [] => 0%nat
      | _ :: r => S (List.length (List.filter is_track r))
      end.
Proof. exact length_split_by_track. Qed.

(** *** Field values between double quotes *)

Lemma endswith_app (s p : string) : Py.endswith (s ++ p) p = true.
Proof.
  induction s as [| c s IH].
  - cbn [String.append]. destruct p; cbn [Py.endswith];
      rewrite String.eqb_refl; reflexivity.
  - cbn [String.append Py.endswith]. rewrite IH. apply orb_true_r.
Qed.

Lemma endswith_inv (s p : string) :
  Py.endswith s p = true -> exists pre, s = pre ++ p.
Proof.
  induction s as [| c s IH]; cbn [Py.endswith]; intros H.
  - rewrite orb_false_r in H. apply String.eqb_eq in H. subst p.
    exists "". reflexivity.
  - apply orb_true_iff in H. destruct H as [H | H].
    + apply String.eqb_eq in H. exists "". cbn [String.append]. exact H.
    + destruct (IH H) as [pre ->]. exists (String c pre). reflexivity.
Qed.

Lemma substring_0_app (s t : string) :
  String.substring 0 (String.length s) (s ++ t) = s.
Proof.
  induction s as [| c s IH]; cbn [String.length String.append String.substring].
  - destruct t; reflexivity.
  - rewrite IH. reflexivity.
Qed.

Lemma length_app_one (s : string) (c : ascii) :
  String.length (s ++ String c "") = S (String.length s).
Proof.
  induction s as [| a s IH]; cbn [String.append String.length]; [reflexivity |].
  rewrite IH. reflexivity.
Qed.

Lemma slice_1_m1_quoted (q : ascii) (s : string) (c : ascii) :
  Py.slice_1_m1 (String q (s ++ String c "")) = s.
Proof.
  unfold Py.slice_1_m1. cbn [String.length]. rewrite length_app_one.
  cbn [Nat.sub String.substring]. rewrite Nat.sub_0_r. apply substring_0_app.
Qed.

Lemma startswith_dquote (t : string) :
  Py.startswith t dquote = true <-> exists r, t = String (ascii_of_nat 34) r.
Proof.
  unfold Py.startswith. rewrite String.prefix_correct.
  destruct t as [| q r]; cbn [dquote String.length String.substring].
  - split; [discriminate | intros [r H]; discriminate H].
  - assert (H0 : String.substring 0 0 r = "") by (destruct r; reflexivity).
    rewrite H0. split.
    + intros H. injection H as ->. exists r. reflexivity.
    + intros [r' H]. injection H as -> _. reflexivity.
Qed.

Lemma undoublequote_cases :
  forall t s : string,
    (undoublequote t = Ok s
     <-> Py.count (ascii_of_nat 34) s = 0
         /\ (t = dquote ++ s ++ dquote \/ (t = dquote /\ s = "")))
    /\ (forall e, undoublequote t = Err e -> e = AssertionError).
Proof.
  intros t s. split; [split |].
  - unfold undoublequote. intros H.
    destruct (Py.startswith t dquote) eqn:Hstart; cbn [assert bind] in H;
      [| discriminate H].
    destruct (Py.endswith t dquote) eqn:Hend; cbn [assert bind] in H;
      [| discriminate H].
    destruct (Py.count (ascii_of_nat 34) (Py.slice_1_m1 t) =? 0) eqn:Hcount;
      cbn [assert bind] in H; [| discriminate H].
    injection H as <-. apply Z.eqb_eq in Hcount. split; [exact Hcount |].
    destruct (endswith_inv t dquote Hend) as [pre ->].
    destruct pre as [| q pre].
    + right. split; reflexivity.
    + left. apply startswith_dquote in Hstart. destruct Hstart as [r Hr].
      cbn [String.append] in Hr. injection Hr as -> _.
      unfold dquote. cbn [String.append].
      rewrite slice_1_m1_quoted. reflexivity.
  - intros [Hcount [-> | [-> ->]]]; [| reflexivity].
    unfold undoublequote.
    assert (Hstart : Py.startswith (dquote ++ s ++ dquote) dquote = true).
    { apply startswith_dquote. eexists. reflexivity. }
    rewrite Hstart. cbn [assert bind].
    assert (Hend : Py.endswith (dquote ++ s ++ dquote) dquote = true).
    { rewrite <- append_assoc. apply endswith_app. }
    rewrite Hend. cbn [assert bind].
    unfold dquote. cbn [String.append]. rewrite slice_1_m1_quoted.
    rewrite Hcount. reflexivity.
  - unfold undoublequote. intros e H.
    destruct (Py.startswith t dquote); cbn [assert bind] in H; [| congruence].
    destruct (Py.endswith t dquote); cbn [assert bind] in H; [| congruence].
    destruct (Py.count (ascii_of_nat 34) (Py.slice_1_m1 t) =? 0);
      cbn [assert bind] in H; congruence.
Qed.

(** [undoublequote] succeeds exactly on a value without double quotes put
    between two double quotes, which it returns, and on the text made of
    one double quote alone, for which it returns the empty string; every
    other text fails an assertion. *)
Theorem undoublequote_spec :
  forall t s : string,
    (undoublequote t = Ok s
     <-> Py.count (ascii_of_nat 34) s = 0
         /\ (t = dquote ++ s ++ dquote \/ (t = dquote /\ s = "")))
    /\ (forall e, undoublequote t = Err e -> e = AssertionError).
Proof. exact undoublequote_cases. Qed.

(** *** Line folder: what the records look like *)

Lemma has_token_app (a b : string) :
  has_token (a ++ b) = has_token a || has_token b.
Proof.
  induction a as [| c a IH]; [reflexivity |].
  cbn [String.append has_token]. rewrite IH. apply orb_assoc.
Qed.

Lemma strip_blank (s : string) : has_token s = false -> Py.strip s = "".
Proof.
  intros H. unfold Py.strip, Py.rstrip.
  assert (Hr : Py.rstrip_by Py.isspace s = "").
  { induction s as [| c s IH]; [reflexivity |].
    cbn [has_token] in H. apply orb_false_iff in H. destruct H as [Hc Hs].
    cbn [Py.rstrip_by]. rewrite (IH Hs).
    destruct (Py.isspace c); [reflexivity | discriminate Hc]. }
  rewrite Hr. reflexivity.
Qed.

Lemma has_token_lstrip (s : string) : has_token (Py.lstrip s) = has_token s.
Proof.
  induction s as [| c s IH]; [reflexivity |].
  cbn [Py.lstrip has_token]. destruct (Py.isspace c) eqn:Hc.
  - exact IH.
  - cbn [has_token]. rewrite Hc. reflexivity.
Qed.

Lemma lstrip_idempotent (s : string) : Py.lstrip (Py.lstrip s) = Py.lstrip s.
Proof.
  induction s as [| c s IH]; [reflexivity |].
  cbn [Py.lstrip]. destruct (Py.isspace c) eqn:Hc; [exact IH |].
  cbn [Py.lstrip]. rewrite Hc. reflexivity.
Qed.

Lemma split_from_nonempty (s : string) :
  forall cur : string,
    cur <> "" \/ has_token s = true -> Py.split_from cur s <> [].
Proof.
  induction s as [| a s IH]; intros cur H; cbn [Py.split_from].
  - destruct H as [H | H]; [| discriminate H].
    destruct cur; [congruence | discriminate].
  - cbn [has_token] in H. destruct (Py.isspace a).
    + destruct cur as [| c cur]; [| discriminate].
      apply IH. right. destruct H as [H | H]; [congruence | exact H].
    + apply IH. left. destruct cur; discriminate.
Qed.

Lemma has_token_join (l : string) (ls : list string) :
  has_token l = true -> has_token (Py.join Py.nl (l :: ls)) = true.
Proof.
  intros H. unfold Py.join. cbn [String.concat].
  destruct ls; [exact H |]. rewrite has_token_app, H. reflexivity.
Qed.

Lemma read_line_has_token (st st' : folder_state) (l : string) :
  Forall (fun p => has_token p = true) (joined_parts st)
  /\ match parts st with [] => True | l0 :: _ => has_token l0 = true end ->
  read_line st l = Ok st' ->
  Forall (fun p => has_token p = true) (joined_parts st')
  /\ match parts st' with [] => True | l0 :: _ => has_token l0 = true end.
Proof.
  intros [Hj Hp] H. unfold read_line in H.
  destruct (skipped (Py.rstrip_newline l)) eqn:Hskip.
  - injection H as <-. split; assumption.
  - assert (Htok : has_token (Py.rstrip_newline l) = true).
    { unfold skipped in Hskip. apply orb_false_iff in Hskip.
      destruct Hskip as [_ Hblank].
      destruct (has_token (Py.rstrip_newline l)) eqn:E; [reflexivity |].
      rewrite (strip_blank _ E) in Hblank. discriminate Hblank. }
    assert (Hhead : match (parts st ++ [Py.rstrip_newline l])%list with
                    | [] => True
                    | l0 :: _ => has_token l0 = true
                    end).
    { destruct (parts st); [exact Htok | exact Hp]. }
    cbv zeta in H.
    destruct (0 <=? brace_count st + net_braces (Py.rstrip_newline l));
      cbn [assert bind] in H; [| discriminate H].
    destruct (brace_count st + net_braces (Py.rstrip_newline l) =? 0);
      injection H as <-; cbn [joined_parts parts].
    + split; [| exact I]. apply Forall_app. split; [exact Hj |].
      constructor; [| constructor].
      destruct (parts st ++ [Py.rstrip_newline l])%list as [| l0 ls] eqn:E.
      * destruct (parts st); discriminate E.
      * apply has_token_join. exact Hhead.
    + split; [exact Hj | exact Hhead].
Qed.

(** Every record that the folder returns has a first token and no
    leading whitespace; so in every group of the splitter every tokenized
    record is non-empty, and the subscript [x[0]] of the field extractor
    is never out of range. *)
Theorem read_cdrdao_toc_records :
  forall (text : string) (records : list string),
    read_cdrdao_toc text = Ok records ->
    Forall (fun p => Py.split p <> [] /\ Py.lstrip p = p) records
    /\ Forall (fun g => Forall (fun x => x <> []) (List.map Py.split g))
         (split_by_track records).
Proof.
  intros text records H.
  assert (Hrec : Forall (fun p => Py.split p <> [] /\ Py.lstrip p = p) records).
  { unfold read_cdrdao_toc in H.
    destruct (Py.for_each read_line (Py.readlines text)
                {| joined_parts := []; parts := []; brace_count := 0 |})
      as [st |] eqn:Hrun; cbn [bind] in H; [| discriminate H].
    destruct (match parts st with [] => true | _ => false end);
      cbn [assert bind] in H; [| discriminate H].
    injection H as <-.
    assert (Hinv : Forall (fun p => has_token p = true) (joined_parts st)
                   /\ match parts st with
                      | [] => True
                      | l0 :: _ => has_token l0 = true
                      end).
    { refine (for_each_invariant
                (fun st => Forall (fun p => has_token p = true) (joined_parts st)
                           /\ match parts st with
                              | [] => True
                              | l0 :: _ => has_token l0 = true
                              end)
                read_line
                (fun s a s' Hs Hstep => read_line_has_token s s' a Hs Hstep)
                _ _ _ _ Hrun).
      split; [constructor | exact I]. }
    destruct Hinv as [Hj _].
    apply Forall_map. revert Hj. apply Forall_impl. intros p Hp. split.
    - apply split_from_nonempty. right. rewrite has_token_lstrip. exact Hp.
    - apply lstrip_idempotent. }
  split; [exact Hrec |].
  rewrite Forall_forall. intros g Hg. apply Forall_map.
  rewrite Forall_forall. intros p Hp.
  rewrite Forall_forall in Hrec. apply Hrec.
  rewrite <- (concat_split_by_track records). apply in_concat.
  exists g. split; assumption.
Qed.

Lemma read_cdrdao_toc_records_witness :
  Forall (fun p => Py.split p <> [] /\ Py.lstrip p = p) ["CD_DA"; "TRACK AUDIO"]
  /\ Forall (fun g => Forall (fun x => x <> []) (List.map Py.split g))
       (split_by_track ["CD_DA"; "TRACK AUDIO"]).
Proof.
  apply (read_cdrdao_toc_records
           ("CD_DA" ++ Py.nl ++ "// one track" ++ Py.nl ++ "  TRACK AUDIO" ++ Py.nl)).
  vm_compute. reflexivity.
Defined.

Lemma rstrip_by_idempotent (p : ascii -> bool) (s : string) :
  Py.rstrip_by p (Py.rstrip_by p s) = Py.rstrip_by p s.
Proof.
  induction s as [| a s IH]; [reflexivity |].
  cbn [Py.rstrip_by].
  destruct (Py.rstrip_by p s) as [| b r] eqn:E.
  - destruct (p a) eqn:Ha; [reflexivity |].
    cbn [Py.rstrip_by]. rewrite Ha. reflexivity.
  - cbv iota. apply rstrip_by_cons; [exact IH | discriminate].
Qed.

Lemma read_line_rstrip (st : folder_state) (l : string) :
  read_line st (Py.rstrip_newline l) = read_line st l.
Proof.
  unfold read_line, Py.rstrip_newline. rewrite rstrip_by_idempotent. reflexivity.
Qed.

Lemma for_each_read_kept (ls : list string) :
  forall st : folder_state,
    Py.for_each read_line ls st
    = Py.for_each read_line
        (List.filter (fun l => negb (skipped l)) (List.map Py.rstrip_newline ls)) st.
Proof.
  induction ls as [| l ls IH]; intros st; [reflexivity |].
  cbn [List.map List.filter Py.for_each].
  destruct (skipped (Py.rstrip_newline l)) eqn:Hskip; cbn [negb].
  - unfold read_line at 1. rewrite Hskip. cbn [bind]. apply IH.
  - cbn [Py.for_each]. rewrite read_line_rstrip.
    destruct (read_line st l); cbn [bind]; [apply IH | reflexivity].
Qed.

(** Comment lines and blank lines never matter: two texts with the same
    remaining lines are folded alike, failure included. *)
Theorem read_cdrdao_toc_kept_lines :
  forall t1 t2 : string,
    kept_lines t1 = kept_lines t2 ->
    read_cdrdao_toc t1 = read_cdrdao_toc t2.
Proof.
  intros t1 t2 H. unfold read_cdrdao_toc.
  rewrite (for_each_read_kept (Py.readlines t1)),
    (for_each_read_kept (Py.readlines t2)).
  unfold kept_lines in H. rewrite H. reflexivity.
Qed.

Lemma read_cdrdao_toc_kept_lines_witness :
  read_cdrdao_toc
    ("// disc" ++ Py.nl ++ "CD_DA" ++ Py.nl ++ Py.nl ++ "  // {" ++ Py.nl
     ++ "TRACK AUDIO")
  = read_cdrdao_toc ("CD_DA" ++ Py.nl ++ "TRACK AUDIO" ++ Py.nl).
Proof.
  apply read_cdrdao_toc_kept_lines. vm_compute. reflexivity.
Defined.

Lemma kept_lines_facts (text : string) :
  Forall (fun k => Py.rstrip_newline k = k /\ skipped k = false) (kept_lines text).
Proof.
  unfold kept_lines. rewrite Forall_forall. intros k Hk.
  apply filter_In in Hk. destruct Hk as [Hin Hskip].
  apply in_map_iff in Hin. destruct Hin as [l [<- _]]. split.
  - apply rstrip_by_idempotent.
  - destruct (skipped (Py.rstrip_newline l)); [discriminate Hskip | reflexivity].
Qed.

Lemma for_each_read_brace_free (ks : list string) :
  forall st : folder_state,
    Forall (fun k => Py.rstrip_newline k = k /\ skipped k = false) ks ->
    Forall (fun k => net_braces k = 0) ks ->
    parts st = [] ->
    brace_count st = 0 ->
    Py.for_each read_line ks st
    = Ok {| joined_parts := (joined_parts st ++ ks)%list;
            parts := [];
            brace_count := 0 |}.
Proof.
  induction ks as [| k ks IH]; intros st Hk Hb Hp Hc.
  - cbn [Py.for_each]. rewrite app_nil_r. destruct st as [j p c].
    cbn in Hp, Hc. subst. reflexivity.
  - inversion Hk as [| ? ? [Hr Hs] Hk']; subst.
    inversion Hb as [| ? ? Hn Hb']; subst.
    cbn [Py.for_each]. unfold read_line. rewrite Hr, Hs, Hp, Hc, Hn.
    cbn [assert bind Z.add Z.leb Z.compare Z.eqb app].
    rewrite IH by (assumption || reflexivity).
    cbn [joined_parts]. rewrite <- app_assoc. reflexivity.
Qed.

(** When no remaining line has more opening than closing braces or the
    reverse, every remaining line is a record of its own, stripped of its
    leading whitespace. *)
Theorem read_cdrdao_toc_brace_free :
  forall text : string,
    Forall (fun k => net_braces k = 0) (kept_lines text) ->
    read_cdrdao_toc text = Ok (List.map Py.lstrip (kept_lines text)).
Proof.
  intros text Hb. unfold read_cdrdao_toc.
  rewrite for_each_read_kept. fold (kept_lines text).
  rewrite (for_each_read_brace_free (kept_lines text)
             {| joined_parts := []; parts := []; brace_count := 0 |}
             (kept_lines_facts text) Hb eq_refl eq_refl).
  reflexivity.
Qed.

Lemma read_cdrdao_toc_brace_free_witness :
  read_cdrdao_toc
    ("CD_DA" ++ Py.nl ++ "// {" ++ Py.nl ++ "  TRACK AUDIO" ++ Py.nl ++ "  x {}")
  = Ok (List.map Py.lstrip
          (kept_lines
             ("CD_DA" ++ Py.nl ++ "// {" ++ Py.nl ++ "  TRACK AUDIO" ++ Py.nl
              ++ "  x {}"))).
Proof.
  apply read_cdrdao_toc_brace_free. vm_compute. repeat constructor.
Defined.

Lemma for_each_cons {S A : Type} (body : S -> A -> result S) (a : A) (l : list A)
    (s : S) :
  Py.for_each body (a :: l) s = (s' <- body s a ;; Py.for_each body l s').
Proof. reflexivity. Qed.

Lemma for_each_read_block (ks : list string) :
  forall st : folder_state,
    Forall (fun k => Py.rstrip_newline k = k /\ skipped k = false) ks ->
    open_until_last (brace_count st) ks = true ->
    Py.for_each read_line ks st
    = Ok {| joined_parts := (joined_parts st ++ [Py.join Py.nl (parts st ++ ks)])%list;
            parts := [];
            brace_count := 0 |}.
Proof.
  induction ks as [| k ks IH]; intros st Hk Hopen; [discriminate Hopen |].
  inversion Hk as [| ? ? [Hr Hs] Hk']; subst.
  cbn [open_until_last] in Hopen. cbv zeta in Hopen.
  rewrite for_each_cons. unfold read_line at 1. rewrite Hr, Hs. cbv zeta.
  destruct ks as [| k' ks].
  - apply Z.eqb_eq in Hopen. rewrite Hopen. reflexivity.
  - apply andb_true_iff in Hopen. destruct Hopen as [Hpos Hopen].
    apply Z.ltb_lt in Hpos.
    destruct (Z.leb_spec 0 (brace_count st + net_braces k)) as [_ | Hneg]; [| lia].
    destruct (Z.eqb_spec (brace_count st + net_braces k) 0) as [Hz | _]; [lia |].
    cbn [assert bind].
    rewrite (IH {| joined_parts := joined_parts st;
                   parts := (parts st ++ [k])%list;
                   brace_count := brace_count st + net_braces k |} Hk' Hopen).
    cbn [joined_parts parts].
    rewrite <- app_assoc. reflexivity.
Qed.

(** A block is folded into one record: when the brace counter of the
    remaining lines stays positive up to the last line and returns to
    zero there, the result is the single record made of all of them,
    joined by newlines. *)
Theorem read_cdrdao_toc_one_block :
  forall text : string,
    open_until_last 0 (kept_lines text) = true ->
    read_cdrdao_toc text
    = Ok [Py.lstrip (Py.join Py.nl (kept_lines text))].
Proof.
  intros text Hopen. unfold read_cdrdao_toc.
  rewrite for_each_read_kept. fold (kept_lines text).
  rewrite (for_each_read_block (kept_lines text)
             {| joined_parts := []; parts := []; brace_count := 0 |}
             (kept_lines_facts text) Hopen).
  reflexivity.
Qed.

Lemma read_cdrdao_toc_one_block_witness :
  read_cdrdao_toc
    ("  CD_TEXT {" ++ Py.nl ++ "  LANGUAGE 0 {" ++ Py.nl ++ "    ISRC x" ++ Py.nl
     ++ "// }" ++ Py.nl ++ "  }" ++ Py.nl ++ "}" ++ Py.nl)
  = Ok [Py.lstrip
          (Py.join Py.nl
             (kept_lines
                ("  CD_TEXT {" ++ Py.nl ++ "  LANGUAGE 0 {" ++ Py.nl ++ "    ISRC x"
                 ++ Py.nl ++ "// }" ++ Py.nl ++ "  }" ++ Py.nl ++ "}" ++ Py.nl)))].
Proof.
  apply read_cdrdao_toc_one_block. vm_compute. reflexivity.
Defined.

Lemma for_each_app {S A : Type} (body : S -> A -> result S) (l1 l2 : list A) :
  forall s : S,
    Py.for_each body (l1 ++ l2) s
    = (s1 <- Py.for_each body l1 s ;; Py.for_each body l2 s1).
Proof.
  induction l1 as [| a l1 IH]; intros s; [reflexivity |].
  cbn [app Py.for_each]. destruct (body s a); cbn [bind]; [apply IH | reflexivity].
Qed.

Lemma for_each_read_prefix (ls : list string) (j0 : list string) :
  forall (j p : list string) (c : Z),
    Py.for_each read_line ls
      {| joined_parts := (j0 ++ j)%list; parts := p; brace_count := c |}
    = (st <- Py.for_each read_line ls
               {| joined_parts := j; parts := p; brace_count := c |} ;;
       Ok {| joined_parts := (j0 ++ joined_parts st)%list;
             parts := parts st;
             brace_count := brace_count st |}).
Proof.
  induction ls as [| l ls IH]; intros j p c; [reflexivity |].
  cbn [Py.for_each]. unfold read_line at 1 3. cbn [joined_parts parts brace_count].
  destruct (skipped (Py.rstrip_newline l)); cbn [bind]; [apply IH |].
  destruct (0 <=? c + net_braces (Py.rstrip_newline l)); cbn [assert bind];
    [| reflexivity].
  destruct (c + net_braces (Py.rstrip_newline l) =? 0); cbn [bind].
  - rewrite <- app_assoc. apply IH.
  - apply IH.
Qed.

Lemma readlines_from_app (u t2 : string) :
  forall cur : string,
    Py.readlines_from cur ((u ++ Py.nl) ++ t2)
    = (Py.readlines_from cur (u ++ Py.nl) ++ Py.readlines_from "" t2)%list.
Proof.
  induction u as [| a u IH]; intros cur.
  - cbn. reflexivity.
  - cbn [String.append Py.readlines_from].
    destruct (Ascii.eqb a Py.newline); cbn [app]; rewrite IH; reflexivity.
Qed.

Lemma read_lines_final_state (ls : list string) :
  forall st st' : folder_state,
    (parts st = [] -> brace_count st = 0) ->
    Py.for_each read_line ls st = Ok st' ->
    parts st' = [] -> brace_count st' = 0.
Proof.
  intros st st' Hinv Hrun.
  refine (for_each_invariant (fun s => parts s = [] -> brace_count s = 0)
            read_line _ ls st st' Hinv Hrun).
  clear. intros s l s' Hs H. unfold read_line in H.
  destruct (skipped (Py.rstrip_newline l)); [injection H as <-; exact Hs |].
  cbv zeta in H.
  destruct (0 <=? brace_count s + net_braces (Py.rstrip_newline l));
    cbn [assert bind] in H; [| discriminate H].
  destruct (Z.eqb_spec (brace_count s + net_braces (Py.rstrip_newline l)) 0)
    as [Hz | Hnz]; injection H as <-; cbn [parts brace_count].
  - intros _. exact Hz.
  - intros Hp. destruct (parts s); discriminate Hp.
Qed.

(** Folding is compositional: after a text that is folded successfully
    and ends with a newline, what follows is folded on its own, and its
    records come after. *)
Theorem read_cdrdao_toc_app :
  forall (u t2 : string) (records1 : list string),
    read_cdrdao_toc (u ++ Py.nl) = Ok records1 ->
    read_cdrdao_toc ((u ++ Py.nl) ++ t2)
    = (records2 <- read_cdrdao_toc t2 ;; Ok (records1 ++ records2)%list).
Proof.
  intros u t2 records1 H1. unfold read_cdrdao_toc in *. unfold Py.readlines in *.
  rewrite readlines_from_app, for_each_app.
  destruct (Py.for_each read_line (Py.readlines_from "" (u ++ Py.nl))
              {| joined_parts := []; parts := []; brace_count := 0 |})
    as [st1 |] eqn:Hrun1; cbn [bind] in H1 |- *; [| discriminate H1].
  pose proof (read_lines_final_state _
                {| joined_parts := []; parts := []; brace_count := 0 |} _
                (fun _ => eq_refl) Hrun1) as Hzero.
  destruct st1 as [j1 p1 c1]. cbn [parts brace_count joined_parts] in *.
  destruct p1 as [| ? ?]; cbn [assert bind] in H1; [| discriminate H1].
  injection H1 as <-. rewrite (Hzero eq_refl).
  rewrite <- (app_nil_r j1) at 1. rewrite for_each_read_prefix.
  destruct (Py.for_each read_line (Py.readlines_from "" t2)
              {| joined_parts := []; parts := []; brace_count := 0 |})
    as [st2 |]; cbn [bind parts joined_parts]; [| reflexivity].
  destruct (parts st2); cbn [assert bind]; [| reflexivity].
  rewrite List.map_app. reflexivity.
Qed.

Lemma read_cdrdao_toc_app_witness :
  read_cdrdao_toc (("CD_DA" ++ Py.nl ++ "x {" ++ Py.nl ++ "}" ++ Py.nl)
                   ++ "TRACK AUDIO" ++ Py.nl ++ "NO COPY")
  = (records2 <- read_cdrdao_toc ("TRACK AUDIO" ++ Py.nl ++ "NO COPY") ;;
     Ok (["CD_DA"; ("x {" ++ Py.nl ++ "}")%string] ++ records2)%list).
Proof.
  apply (read_cdrdao_toc_app ("CD_DA" ++ Py.nl ++ "x {" ++ Py.nl ++ "}")).
  vm_compute. reflexivity.
Defined.

(** *** Cue emitter: the shape of the output *)

Lemma concat_cons_nonempty (sep x : string) (l : list string) :
  l <> [] -> String.concat sep (x :: l) = x ++ sep ++ String.concat sep l.
Proof. destruct l; [congruence | reflexivity]. Qed.

Lemma line_cons_spaces :
  forall (indent : nat) (part : string) (parts : list string),
    line indent (part :: parts)
    = spaces (2 * indent) ++ Py.join " " (part :: parts).
Proof.
  intros indent part parts. unfold line, Py.join.
  induction indent as [| n IH]; [reflexivity |].
  replace (2 * S n)%nat with (S (S (2 * n))) by lia.
  cbn [List.repeat app spaces].
  rewrite concat_cons_nonempty by (destruct (List.repeat " " n); discriminate).
  rewrite IH. reflexivity.
Qed.

(** [line] puts two spaces per indent level before its parts, which it
    joins by single spaces. *)
Theorem line_spaces :
  forall (indent : nat) (part : string) (parts : list string),
    line indent (part :: parts)
    = spaces (2 * indent) ++ Py.join " " (part :: parts).
Proof. exact line_cons_spaces. Qed.

Lemma is_track_line_file (x : string) :
  is_track_line (line 0 ["FILE"; x; "BINARY"]) = false.
Proof. reflexivity. Qed.

Lemma is_track_line_catalog (x : string) :
  is_track_line (line 0 ["CATALOG"; x]) = false.
Proof. reflexivity. Qed.

Lemma prefix_app (p r : string) : String.prefix p (p ++ r) = true.
Proof.
  induction p as [| a p IH]; [destruct r; reflexivity |].
  cbn [String.append String.prefix].
  destruct (ascii_dec a a); [exact IH | congruence].
Qed.

Lemma is_track_line_track (x y : string) :
  is_track_line (line 1 ["TRACK"; x; y]) = true.
Proof.
  change (line 1 ["TRACK"; x; y]) with ("  TRACK " ++ (x ++ " " ++ y)).
  apply prefix_app.
Qed.

Lemma is_track_line_level_2 (kw : string) (rest : list string) :
  is_track_line (line 2 (kw :: rest)) = false.
Proof. rewrite line_cons_spaces. reflexivity. Qed.

Lemma filter_track_snoc (ls : list string) (l : string) :
  List.filter is_track_line (ls ++ [l])
  = (List.filter is_track_line ls ++ if is_track_line l then [l] else [])%list.
Proof. rewrite List.filter_app. reflexivity. Qed.

Lemma emit_group_track_lines (b : bool) (st st' : emitter_state) (k : nat)
    (data : list (list string)) :
  emit_group b st (k, data) = Ok st' ->
  List.filter is_track_line (cuesheet st')
  = (List.filter is_track_line (cuesheet st)
       ++ if (k =? 0)%nat then [] else [track_line (k, data)])%list.
Proof.
  intros H. unfold emit_group in H. unfold track_line.
  destruct (has_copy data); cbv zeta in H; run_ok;
    repeat match goal with
           | |- context [match ?x with Some _ => _ | None => _ end] =>
               is_var x; destruct x
           end;
    unfold append_line; cbn [cuesheet];
    rewrite ?filter_track_snoc, ?is_track_line_file, ?is_track_line_catalog,
      ?is_track_line_track, ?is_track_line_level_2, <- ?app_assoc, ?app_nil_r;
    cbn [app];
    repeat match goal with
           | E : track_type _ = Ok _ |- _ => rewrite E
           | E : String.eqb _ _ = _ |- _ => rewrite E
           end;
    reflexivity.
Qed.

Lemma for_each_emit_track_lines (b : bool) (items : list (nat * list (list string))) :
  forall st st' : emitter_state,
    Py.for_each (emit_group b) items st = Ok st' ->
    List.filter is_track_line (cuesheet st')
    = (List.filter is_track_line (cuesheet st)
         ++ List.flat_map
              (fun item => if (fst item =? 0)%nat then [] else [track_line item])
              items)%list.
Proof.
  induction items as [| [k data] items IH]; intros st st' H.
  - cbn in H. injection H as <-. cbn. rewrite app_nil_r. reflexivity.
  - rewrite for_each_cons in H.
    destruct (emit_group b st (k, data)) as [st1 |] eqn:E; cbn [bind] in H;
      [| discriminate H].
    rewrite (IH st1 st' H), (emit_group_track_lines b st st1 k data E).
    cbn [List.flat_map fst]. rewrite <- app_assoc. reflexivity.
Qed.

Lemma flat_map_numbered (groups : list (list (list string))) :
  forall n : nat,
    List.flat_map
      (fun item => if (fst item =? 0)%nat then [] else [track_line item])
      (List.combine (List.seq (S n) (List.length groups)) groups)
    = List.map track_line (List.combine (List.seq (S n) (List.length groups)) groups).
Proof.
  induction groups as [| g groups IH]; intros n; [reflexivity |].
  cbn [List.length List.seq List.combine List.flat_map List.map fst Nat.eqb app].
  rewrite IH. reflexivity.
Qed.

Lemma cuesheet_track_lines_numbered :
  forall (parts : list string) (ls : list string),
    cuesheet_lines parts = Ok ls ->
    exists (header : list (list string)) (groups : list (list (list string))),
      List.map (List.map Py.split) (split_by_track parts) = header :: groups
      /\ List.filter is_track_line ls
         = List.map track_line
             (List.combine (List.seq 1 (List.length groups)) groups).
Proof.
  intros parts ls H. unfold cuesheet_lines in H. cbv zeta in H.
  destruct (List.map (List.map Py.split) (split_by_track parts))
    as [| header groups] eqn:Et; [discriminate H |].
  exists header, groups. split; [reflexivity |].
  destruct (Py.item1 (header :: groups)) as [tracks_1 |]; cbn [bind] in H;
    [| discriminate H].
  destruct (track_type tracks_1) as [ty |]; cbn [bind] in H; [| discriminate H].
  match type of H with
  | bind (Py.for_each ?body ?l ?s0) _ = _ =>
      destruct (Py.for_each body l s0) as [st |] eqn:Hrun;
      cbn [bind] in H; [| discriminate H]
  end.
  injection H as <-.
  rewrite filter_track_snoc.
  rewrite (for_each_emit_track_lines _ _ _ _ Hrun).
  unfold Py.enumerate.
  cbn [List.length List.seq List.combine List.flat_map fst Nat.eqb cuesheet
       List.filter app].
  rewrite flat_map_numbered.
  change (is_track_line (line 0 [])) with false. rewrite app_nil_r. reflexivity.
Qed.

(** Track numbers are positions: in every successful conversion the
    TRACK lines of the output are, in order, one per group after the
    first, numbered 01, 02, ... by the position of the group and typed
    AUDIO or MODE1/2048 by its TRACK record; the first group yields
    none. *)
Theorem cuesheet_track_numbering :
  forall (parts : list string) (ls : list string),
    cuesheet_lines parts = Ok ls ->
    exists (header : list (list string)) (groups : list (list (list string))),
      List.map (List.map Py.split) (split_by_track parts) = header :: groups
      /\ List.filter is_track_line ls
         = List.map track_line
             (List.combine (List.seq 1 (List.length groups)) groups).
Proof. exact cuesheet_track_lines_numbered. Qed.

Lemma cuesheet_track_numbering_witness :
  exists (header : list (list string)) (groups : list (list (list string))),
    List.map (List.map Py.split)
      (split_by_track ["CD_DA"; "TRACK AUDIO"; "FILE x 0 1:0:0"; "TRACK MODE1"])
    = header :: groups
    /\ List.filter is_track_line
         ["FILE " ++ dquote ++ "data.wav" ++ dquote ++ " BINARY";
          "  TRACK 01 AUDIO"; "    INDEX 01 00:00:00";
          "  TRACK 02 MODE1/2048"; "    INDEX 01 00:00:00"; ""]
       = List.map track_line
           (List.combine (List.seq 1 (List.length groups)) groups).
Proof.
  apply (cuesheet_track_numbering
           ["CD_DA"; "TRACK AUDIO"; "FILE x 0 1:0:0"; "TRACK MODE1"]).
  vm_compute. reflexivity.
Defined.

Lemma emit_group_appends (b : bool) (st st' : emitter_state)
    (item : nat * list (list string)) :
  emit_group b st item = Ok st' ->
  exists ls : list string, cuesheet st' = (cuesheet st ++ ls)%list.
Proof.
  intros H. unfold emit_group in H. destruct item as [k data].
  destruct (has_copy data); cbv zeta in H; run_ok;
    repeat match goal with
           | |- context [match ?x with Some _ => _ | None => _ end] =>
               is_var x; destruct x
           end;
    unfold append_line; cbn [cuesheet]; rewrite <- ?app_assoc;
    eexists; reflexivity.
Qed.

Lemma for_each_emit_appends (b : bool) (items : list (nat * list (list string))) :
  forall st st' : emitter_state,
    Py.for_each (emit_group b) items st = Ok st' ->
    exists ls : list string, cuesheet st' = (cuesheet st ++ ls)%list.
Proof.
  induction items as [| item items IH]; intros st st' H.
  - cbn in H. injection H as <-. exists []. rewrite app_nil_r. reflexivity.
  - rewrite for_each_cons in H.
    destruct (emit_group b st item) as [st1 |] eqn:E; cbn [bind] in H;
      [| discriminate H].
    destruct (emit_group_appends b st st1 item E) as [l1 H1].
    destruct (IH st1 st' H) as [l2 H2].
    exists (l1 ++ l2)%list. rewrite H2, H1, app_assoc. reflexivity.
Qed.

Lemma cuesheet_lines_shape :
  forall (parts : list string) (ls : list string),
    cuesheet_lines parts = Ok ls ->
    exists (header tracks_1 : list (list string))
           (others : list (list (list string))) (ty : string)
           (middle : list string),
      List.map (List.map Py.split) (split_by_track parts)
      = header :: tracks_1 :: others
      /\ track_type tracks_1 = Ok ty
      /\ ls = (line 0 ["FILE";
                       if String.eqb ty "AUDIO" then data_wav else data_1;
                       "BINARY"]
                 :: middle ++ [""])%list.
Proof.
  intros parts ls H. unfold cuesheet_lines in H. cbv zeta in H.
  destruct (List.map (List.map Py.split) (split_by_track parts))
    as [| header [| tracks_1 others]] eqn:Et; try discriminate H.
  cbn [Py.item1 bind] in H.
  destruct (track_type tracks_1) as [ty |] eqn:Ety; cbn [bind] in H;
    [| discriminate H].
  exists header, tracks_1, others, ty.
  unfold Py.enumerate in H. cbn [List.length List.seq List.combine] in H.
  rewrite for_each_cons in H.
  match type of H with
  | bind (bind ?first _) _ = _ =>
      destruct first as [st1 |] eqn:E1; cbn [bind] in H; [| discriminate H]
  end.
  match type of H with
  | bind (Py.for_each ?body ?l ?s0) _ = _ =>
      destruct (Py.for_each body l s0) as [st |] eqn:Hrun;
      cbn [bind] in H; [| discriminate H]
  end.
  injection H as <-.
  destruct (for_each_emit_appends _ _ _ _ Hrun) as [more Hmore].
  unfold emit_group in E1. cbn [Nat.eqb] in E1. cbv zeta in E1.
  destruct (get_catalog header) as [[catalog |] |]; cbn [bind] in E1;
    try discriminate E1; injection E1 as <-;
    unfold append_line in Hmore; cbn [cuesheet app] in Hmore; rewrite Hmore.
  - exists (line 0 ["CATALOG"; catalog] :: more).
    split; [reflexivity | split; [exact Ety | reflexivity]].
  - exists more. split; [reflexivity | split; [exact Ety | reflexivity]].
Qed.

(** In every successful conversion the first line is the FILE line, and
    the file it names is decided by the type of the second group alone:
    data.wav when that group is AUDIO, data_1 otherwise; the last line is
    empty. *)
Theorem cuesheet_first_line :
  forall (parts : list string) (ls : list string),
    cuesheet_lines parts = Ok ls ->
    exists (header tracks_1 : list (list string))
           (others : list (list (list string))) (ty : string)
           (middle : list string),
      List.map (List.map Py.split) (split_by_track parts)
      = header :: tracks_1 :: others
      /\ track_type tracks_1 = Ok ty
      /\ ls = (line 0 ["FILE";
                       if String.eqb ty "AUDIO" then data_wav else data_1;
                       "BINARY"]
                 :: middle ++ [""])%list.
Proof. exact cuesheet_lines_shape. Qed.

Lemma cuesheet_first_line_witness :
  exists (header tracks_1 : list (list string))
         (others : list (list (list string))) (ty : string)
         (middle : list string),
    List.map (List.map Py.split) (split_by_track ["CD_ROM"; "TRACK MODE1"])
    = header :: tracks_1 :: others
    /\ track_type tracks_1 = Ok ty
    /\ ["FILE " ++ dquote ++ "data_1" ++ dquote ++ " BINARY";
        "  TRACK 01 MODE1/2048"; "    INDEX 01 00:00:00"; ""]
       = (line 0 ["FILE";
                  if String.eqb ty "AUDIO" then data_wav else data_1;
                  "BINARY"]
            :: middle ++ [""])%list.
Proof.
  apply (cuesheet_first_line ["CD_ROM"; "TRACK MODE1"]).
  vm_compute. reflexivity.
Defined.

Lemma join_snoc_empty (sep : string) (ls : list string) :
  ls <> [] -> Py.join sep (ls ++ [""]) = Py.join sep ls ++ sep.
Proof.
  unfold Py.join. induction ls as [| l ls IH]; [congruence |]. intros _.
  destruct ls as [| l' ls].
  - cbn. rewrite append_nil_r. reflexivity.
  - change ((l :: l' :: ls) ++ [""])%list with (l :: ((l' :: ls) ++ [""]))%list.
    rewrite (concat_cons_nonempty sep l ((l' :: ls) ++ [""])%list)
      by (cbn [app]; discriminate).
    rewrite IH by discriminate.
    rewrite (concat_cons_nonempty sep l (l' :: ls)) by discriminate.
    rewrite !append_assoc. reflexivity.
Qed.

(** The text of every successful conversion ends with a newline. *)
Theorem make_cuesheet_trailing_newline :
  forall (parts : list string) (out : string),
    make_cuesheet parts = Ok out ->
    Py.endswith out Py.nl = true.
Proof.
  intros parts out H. unfold make_cuesheet in H.
  destruct (cuesheet_lines parts) as [ls |] eqn:Hls; cbn [bind] in H;
    [| discriminate H].
  injection H as <-.
  destruct (cuesheet_lines_shape parts ls Hls)
    as [header [tracks_1 [others [ty [middle [_ [_ ->]]]]]]].
  rewrite app_comm_cons, join_snoc_empty by discriminate.
  apply endswith_app.
Qed.

Lemma make_cuesheet_trailing_newline_witness :
  Py.endswith cue_sample Py.nl = true.
Proof.
  apply (make_cuesheet_trailing_newline
           ["CD_DA";
            "CATALOG " ++ dquote ++ "1234567890123" ++ dquote;
            "TRACK AUDIO"; "COPY";
            "ISRC " ++ dquote ++ "US1234567890" ++ dquote;
            "SILENCE 00:00:30";
            "FILE " ++ dquote ++ "data.wav" ++ dquote ++ " 0 03:00:00";
            "TRACK AUDIO"; "NO COPY";
            "FILE " ++ dquote ++ "data.wav" ++ dquote ++ " 03:00:00 04:00:00";
            "START 00:02:00";
            "TRACK MODE1"]).
  vm_compute. reflexivity.
Defined.

(** *** Cue emitter: what makes it fail *)

Lemma enumerate_nth {A : Type} (l : list A) :
  forall (n k : nat) (a : A),
    List.nth_error l k = Some a ->
    List.In ((n + k)%nat, a) (List.combine (List.seq n (List.length l)) l).
Proof.
  induction l as [| x l IH]; intros n k a H.
  - destruct k; discriminate H.
  - destruct k as [| k]; cbn [List.nth_error] in H;
      cbn [List.length List.seq List.combine].
    + injection H as ->. left. rewrite Nat.add_0_r. reflexivity.
    + right. replace (n + S k)%nat with (S n + k)%nat by lia.
      apply IH. exact H.
Qed.

Lemma for_each_fails {S A : Type} (body : S -> A -> result S) (item : A)
    (l : list A) :
  List.In item l ->
  (forall s out, body s item <> Ok out) ->
  forall s out, Py.for_each body l s <> Ok out.
Proof.
  intros Hin Hbody. induction l as [| a l IH]; [contradiction Hin |].
  intros s out H. rewrite for_each_cons in H.
  destruct (body s a) as [s1 |] eqn:E; cbn [bind] in H; [| discriminate H].
  destruct Hin as [-> | Hin].
  - exact (Hbody s s1 E).
  - exact (IH Hin s1 out H).
Qed.

(** A group after the first whose TRACK record declares a type other
    than AUDIO and MODE1 makes the whole conversion fail: no cue sheet is
    produced, whatever the other groups are. *)
Theorem make_cuesheet_unknown_track_type :
  forall (parts : list string) (k : nat) (data : list (list string)) (ty : string),
    List.nth_error (List.map (List.map Py.split) (split_by_track parts)) k
    = Some data ->
    k <> 0%nat ->
    track_type data = Ok ty ->
    ty <> "AUDIO" ->
    ty <> "MODE1" ->
    (forall (b : bool) (st : emitter_state),
        emit_group b st (k, data) = Err (UnknownTrackType ty))
    /\ forall out : string, make_cuesheet parts <> Ok out.
Proof.
  intros parts k data ty Hnth Hk Hty Haudio Hmode1.
  assert (Hbody : forall (b : bool) (st : emitter_state),
             emit_group b st (k, data) = Err (UnknownTrackType ty)).
  { intros b st. unfold emit_group.
    destruct (Nat.eqb_spec k 0) as [-> | _]; [congruence |].
    rewrite Hty. cbn [bind].
    destruct (String.eqb_spec ty "AUDIO") as [-> | _]; [congruence |].
    destruct (String.eqb_spec ty "MODE1") as [-> | _]; [congruence |].
    reflexivity. }
  split; [exact Hbody |].
  intros out H. unfold make_cuesheet, cuesheet_lines in H. cbv zeta in H.
  destruct (Py.item1 (List.map (List.map Py.split) (split_by_track parts)))
    as [tracks_1 |]; cbn [bind] in H; [| discriminate H].
  destruct (track_type tracks_1) as [ty1 |]; cbn [bind] in H; [| discriminate H].
  match type of H with
  | bind (bind (Py.for_each ?body ?l ?s0) _) _ = _ =>
      destruct (Py.for_each body l s0) as [st |] eqn:Hrun;
      cbn [bind] in H; [| discriminate H]
  end.
  refine (for_each_fails _ (k, data) _ _ _ _ _ Hrun).
  - exact (enumerate_nth _ 0 k data Hnth).
  - intros s out' E. rewrite Hbody in E. discriminate E.
Qed.

Lemma make_cuesheet_unknown_track_type_witness :
  (forall (b : bool) (st : emitter_state),
      emit_group b st (2%nat, [["TRACK"; "MODE2_FORM1"]])
      = Err (UnknownTrackType "MODE2_FORM1"))
  /\ forall out : string,
       make_cuesheet ["CD_ROM_XA"; "TRACK MODE1"; "TRACK MODE2_FORM1"] <> Ok out.
Proof.
  apply (make_cuesheet_unknown_track_type
           ["CD_ROM_XA"; "TRACK MODE1"; "TRACK MODE2_FORM1"] 2
           [["TRACK"; "MODE2_FORM1"]] "MODE2_FORM1").
  - reflexivity.
  - discriminate.
  - reflexivity.
  - discriminate.
  - discriminate.
Defined.

(** An audio group is emitted only if it has exactly one FILE record,
    with at least a name, a start and a length, and a start that is a
    bare 0 or parses as a timecode. *)
Theorem emit_group_audio_needs_file :
  forall (b : bool) (st st' : emitter_state) (k : nat) (data : list (list string)),
    emit_group b st (k, data) = Ok st' ->
    k <> 0%nat ->
    track_type data = Ok "AUDIO" ->
    exists (name start len : string) (rest : list string) (n : Z),
      List.filter (first_token_is "FILE") data
      = ["FILE" :: name :: start :: len :: rest]
      /\ to_fracs (declared_start start) = Ok n.
Proof.
  intros b st st' k data H Hk Hty. unfold emit_group in H.
  destruct (Nat.eqb_spec k 0) as [-> | _]; [congruence |].
  rewrite Hty in H. cbn [bind String.eqb Ascii.eqb Bool.eqb] in H. cbv zeta in H.
  destruct (get_isrc data) as [isrc |]; cbn [bind] in H; [| discriminate H].
  destruct (get_track_file data) as [[[| start [| len [| ? ?]]] |] |] eqn:Efile;
    cbn [bind] in H; try discriminate H.
  match type of H with
  | bind (offset_sum ?x ?y) _ = _ =>
      destruct (offset_sum x y) as [track_start |] eqn:Esum;
      cbn [bind] in H; [| discriminate H]
  end.
  clear H.
  pose proof (only_matching_word_ok_nonempty _ _ _ _ _ Efile) as Hdata.
  unfold get_track_file in Efile.
  rewrite (only_matching_word_by_filter data "FILE" _ false Hdata) in Efile.
  destruct (List.filter (first_token_is "FILE") data) as [| x [| y l]] eqn:Ef;
    try discriminate Efile.
  cbn [bind] in Efile. injection Efile as Eslice.
  assert (Hx : first_token_is "FILE" x = true).
  { assert (Hin : List.In x (List.filter (first_token_is "FILE") data))
      by (rewrite Ef; left; reflexivity).
    apply filter_In in Hin. tauto. }
  destruct x as [| w [| name [| start' [| len' rest]]]]; try discriminate Eslice;
    try discriminate Hx.
  cbn in Eslice. injection Eslice as -> ->.
  cbn [first_token_is] in Hx. apply String.eqb_eq in Hx. subst w.
  unfold offset_sum, declared_start in *.
  match type of Esum with
  | bind (to_fracs ?x) _ = _ =>
      destruct (to_fracs x) as [n |] eqn:En; cbn [bind] in Esum;
      [| discriminate Esum]
  end.
  exists name, start, len, rest, n. split; [reflexivity | exact En].
Qed.

Lemma emit_group_audio_needs_file_witness :
  exists (name start len : string) (rest : list string) (n : Z),
    List.filter (first_token_is "FILE") data_track_2
    = ["FILE" :: name :: start :: len :: rest]
    /\ to_fracs (declared_start start) = Ok n.
Proof.
  refine (emit_group_audio_needs_file true
            {| cuesheet := []; silence_offset := "00:00:30" |}
            {| cuesheet := ["  TRACK 02 AUDIO"; "    INDEX 00 03:00:30";
                            "    INDEX 01 03:02:30"];
               silence_offset := "00:00:30" |}
            2 data_track_2 _ _ _).
  - reflexivity.
  - discriminate.
  - reflexivity.
Defined.

(** *** Cue emitter and splitter together *)

(** In every successful conversion there are as many TRACK lines as
    there are TRACK records after the first record: a TRACK record in
    first position opens the group that is read as the disc header, and
    gets no TRACK line. *)
Theorem cuesheet_track_line_count :
  forall (p : string) (r : list string) (ls : list string),
    cuesheet_lines (p :: r) = Ok ls ->
    List.length (List.filter is_track_line ls)
    = List.length (List.filter is_track r).
Proof.
  intros p r ls H.
  destruct (cuesheet_track_lines_numbered (p :: r) ls H)
    as [header [groups [Hgroups ->]]].
  rewrite List.length_map, List.length_combine, List.length_seq, Nat.min_id.
  pose proof (f_equal (@List.length _) Hgroups) as Hlen.
  rewrite List.length_map, length_split_by_track in Hlen.
  cbn [List.length] in Hlen. lia.
Qed.

Lemma cuesheet_track_line_count_witness :
  List.length
    (List.filter is_track_line
       ["FILE " ++ dquote ++ "data_1" ++ dquote ++ " BINARY";
        "  TRACK 01 MODE1/2048"; "    INDEX 01 00:00:00"; ""])
  = List.length (List.filter is_track ["FILE x 0 1:0:0"; "TRACK MODE1"]).
Proof.
  apply (cuesheet_track_line_count "TRACK AUDIO" ["FILE x 0 1:0:0"; "TRACK MODE1"]).
  vm_compute. reflexivity.
Defined.

Lemma prefix_inv (a : string) :
  forall p : string, String.prefix a p = true -> exists r, p = a ++ r.
Proof.
  induction a as [| c a IH]; intros p H.
  - exists p. reflexivity.
  - destruct p as [| d p]; [discriminate H |].
    cbn [String.prefix] in H.
    destruct (ascii_dec c d) as [<- | _]; [| discriminate H].
    destruct (IH p H) as [r ->]. exists r. reflexivity.
Qed.

Lemma split_track_record (r : string) :
  Py.split ("TRACK " ++ r) = "TRACK" :: Py.split r.
Proof. reflexivity. Qed.

(** In every group after the first, the assertion of [track_type] on the
    TRACK keyword holds: the type is the first token that follows TRACK
    in the first record, and [track_type] fails, with an index out of
    range, only when nothing follows. *)
Theorem track_type_after_first_group :
  forall (parts : list string) (g : list string),
    List.In g (List.tl (split_by_track parts)) ->
    exists (r : string) (rest : list string),
      g = ("TRACK " ++ r) :: rest
      /\ track_type (List.map Py.split g) = Py.item0 (Py.split r).
Proof.
  intros parts g Hin.
  pose proof (proj2 (split_by_track_heads_are_tracks parts)) as Hheads.
  rewrite Forall_forall in Hheads.
  destruct (Hheads g Hin) as [p [rest [-> Hp]]].
  destruct (prefix_inv "TRACK " p Hp) as [r ->].
  exists r, rest. split; [reflexivity |].
  cbn [List.map]. rewrite split_track_record. unfold track_type.
  cbn [Py.item0 bind String.eqb Ascii.eqb Bool.eqb assert Py.item1].
  destruct (Py.split r); reflexivity.
Qed.

Lemma track_type_after_first_group_witness :
  exists (r : string) (rest : list string),
    ["TRACK AUDIO"; "NO COPY"] = ("TRACK " ++ r) :: rest
    /\ track_type (List.map Py.split ["TRACK AUDIO"; "NO COPY"])
       = Py.item0 (Py.split r).
Proof.
  apply (track_type_after_first_group ["CD_DA"; "TRACK AUDIO"; "NO COPY"]).
  left. reflexivity.
Defined.

(** The group in first position is emitted as the disc header whatever
    its records are: a FILE line, then the value of its CATALOG record
    without its quotes if it has exactly one; the silence offset is left
    as it was. *)
Theorem emit_group_header :
  forall (b : bool) (st : emitter_state) (data : list (list string)),
    Forall (fun x => x <> []) data ->
    (List.filter (first_token_is "CATALOG") data = [] ->
     emit_group b st (0%nat, data)
     = Ok {| cuesheet :=
               (cuesheet st
                  ++ [line 0 ["FILE"; if b then data_wav else data_1; "BINARY"]])%list;
             silence_offset := silence_offset st |})
    /\ (forall (c : string) (rest : list string),
          List.filter (first_token_is "CATALOG") data
          = ["CATALOG" :: (dquote ++ c ++ dquote)%string :: rest] ->
          Py.count (ascii_of_nat 34) c = 0 ->
          emit_group b st (0%nat, data)
          = Ok {| cuesheet :=
                    (cuesheet st
                       ++ [line 0 ["FILE"; if b then data_wav else data_1; "BINARY"];
                           ("CATALOG " ++ c)%string])%list;
                  silence_offset := silence_offset st |}).
Proof.
  intros b st data Hdata. split.
  - intros Hnone. unfold emit_group, get_catalog. cbn [Nat.eqb]. cbv zeta.
    rewrite (only_matching_word_by_filter data "CATALOG" _ true Hdata), Hnone.
    reflexivity.
  - intros c rest Hone Hc. unfold emit_group, get_catalog. cbn [Nat.eqb]. cbv zeta.
    rewrite (only_matching_word_by_filter data "CATALOG" _ true Hdata), Hone.
    cbn [Py.slice_1 List.tl Py.item0 bind].
    rewrite (proj2 (proj1 (undoublequote_cases (dquote ++ c ++ dquote) c))
               (conj Hc (or_introl eq_refl))).
    cbn [bind]. unfold append_line. cbn [cuesheet silence_offset].
    rewrite <- app_assoc. reflexivity.
Qed.

Lemma emit_group_header_witness :
  emit_group true {| cuesheet := []; silence_offset := "00:00:00" |}
    (0%nat, [["TRACK"; "AUDIO"];
             ["CATALOG"; dquote ++ "0123456789012" ++ dquote]])
  = Ok {| cuesheet := ["FILE " ++ dquote ++ "data.wav" ++ dquote ++ " BINARY";
                       "CATALOG 0123456789012"];
          silence_offset := "00:00:00" |}.
Proof.
  refine (proj2 (emit_group_header true
                   {| cuesheet := []; silence_offset := "00:00:00" |}
                   [["TRACK"; "AUDIO"];
                    ["CATALOG"; dquote ++ "0123456789012" ++ dquote]] _)
            "0123456789012" [] _ _).
  - repeat constructor; discriminate.
  - reflexivity.
  - reflexivity.
Defined.
